(** * The log10 feedback client ([log10/feedback/feedback.py])

    A shallow embedding of the [Feedback] client class and of the two
    click commands [create_feedback] and [list_feedback], followed by the
    properties of their request/response contract.

    Python values that travel as JSON are the type [JSON]; the effects of
    the module (HTTP requests, the [LOG10] logger, standard output, the
    attributes of [Feedback] instances) are fields of a [World] that a
    small state-and-exception monad threads through the code.  What the
    module imports from other packages (the httpx transport, the json
    codec, [str()] of an exception, rich's parser of console markup, the
    environment's default [Log10Config]) is the interface [Externals]. *)

From Stdlib Require Import ZArith String Ascii List Bool Lia.
From stdpp Require Import base list strings pretty.

Local Open Scope Z_scope.
Local Open Scope string_scope.
Local Open Scope list_scope.

Set Warnings "-register-all".

(** ** JSON values and the Python operations the module applies to them *)

(** A decoded JSON document, as [json.loads] / [Response.json()] hand it
    to Python: [None], [bool], [int], [float] (kept as its literal),
    [str], [list], and [dict] (insertion-ordered, as an association
    list). *)
Inductive JSON : Type :=
| JNull
| JBool (b : bool)
| JInt (n : Z)
| JFloat (literal : string)
| JStr (s : string)
| JArr (items : list JSON)
| JObj (fields : list (string * JSON)).

Definition Dict : Type := list (string * JSON).

(** [d.get(k)] on a dict: the value bound to [k], if any. *)
Fixpoint dict_get (k : string) (d : Dict) : option JSON :=
  match d with
  | [] => None
  | (k', v) :: rest => if String.eqb k k' then Some v else dict_get k rest
  end.

(** [d[k] = v]: overwrite in place when [k] is bound, append otherwise. *)
Fixpoint dict_setitem (k : string) (v : JSON) (d : Dict) : Dict :=
  match d with
  | [] => [(k, v)]
  | (k', v') :: rest =>
      if String.eqb k k' then (k', v) :: rest else (k', v') :: dict_setitem k v rest
  end.

Definition dict_keys (d : Dict) : list string := map fst d.

(** [needle in hay] for two strings: substring test. *)
Fixpoint is_substring (needle hay : string) : bool :=
  String.prefix needle hay ||
  match hay with
  | EmptyString => false
  | String _ rest => is_substring needle rest
  end.

(** [s.split(sep)] for a one-character separator. *)
Fixpoint str_split (sep : ascii) (s : string) : list string :=
  match s with
  | EmptyString => [EmptyString]
  | String c rest =>
      if Ascii.eqb c sep then EmptyString :: str_split sep rest
      else match str_split sep rest with
           | [] => [String c EmptyString]
           | hd :: tl => String c hd :: tl
           end
  end.

(** [sep.join(parts)]. *)
Fixpoint str_join (sep : string) (parts : list string) : string :=
  match parts with
  | [] => ""
  | [p] => p
  | p :: rest => p +:+ sep +:+ str_join sep rest
  end.

(** A [str] is held as its UTF-8 encoding.  A continuation byte
    ([10xxxxxx]) belongs to the character of the byte before it. *)
Definition is_continuation (c : ascii) : bool :=
  match c with
  | Ascii _ _ _ _ _ _ b6 b7 => b7 && negb b6
  end.

Definition starts_in_continuation (s : string) : bool :=
  match s with
  | EmptyString => false
  | String c _ => is_continuation c
  end.

(** The characters (code points) of a string, each as a string. *)
Fixpoint chars_of (s : string) : list string :=
  match s with
  | EmptyString => []
  | String c rest =>
      match chars_of rest with
      | hd :: tl =>
          if starts_in_continuation rest then String c hd :: tl
          else String c EmptyString :: hd :: tl
      | [] => [String c EmptyString]
      end
  end.

(** ** HTTP messages *)

Inductive Method := GET | POST.

Record Request := {
  req_method : Method;
  req_url : string;
  req_headers : list (string * string);
  req_json : option JSON;
}.

(** The body of a response as [Response.json()] sees it: either it
    decodes to a JSON value or it does not. *)
Inductive Body :=
| JsonBody (j : JSON)
| NonJsonBody (raw : string).

Record Response := {
  status_code : Z;
  body : Body;
}.

(** ** Exceptions

    Only subclasses of [Exception] are modelled: they are what the
    [except Exception] clauses of the module catch. *)
Inductive Exn :=
| RequestError (msg : string)          (* httpx transport failure; has no [response] *)
| HTTPStatusError (response : Response) (* raised by [raise_for_status] *)
| JSONDecodeError
| TypeError
| KeyError (key : string)
| AttributeError
| NotRenderableError                    (* rich: a table cell that is no renderable *)
| MarkupError                           (* rich: console markup it cannot parse *)
| ReferenceError.                       (* a dangling instance reference; never produced by [__init__] *)

(** [hasattr(e, "response")], with the attribute when it holds. *)
Definition exn_response (e : Exn) : option Response :=
  match e with
  | HTTPStatusError r => Some r
  | _ => None
  end.

Inductive Outcome (A : Type) : Type :=
| Return (a : A)
| Raise (e : Exn).
Arguments Return {A} a.
Arguments Raise {A} e.

(** [x in container] for a string [x]. *)
Definition py_contains (x : string) (container : JSON) : Outcome bool :=
  match container with
  | JObj d => Return (match dict_get x d with Some _ => true | None => false end)
  | JArr items => Return (existsb (fun it => match it with JStr s => String.eqb s x | _ => false end) items)
  | JStr s => Return (is_substring x s)
  | JNull | JBool _ | JInt _ | JFloat _ => Raise TypeError
  end.

(** [container[k]] for a string [k]. *)
Definition py_getitem (container : JSON) (k : string) : Outcome JSON :=
  match container with
  | JObj d => match dict_get k d with Some v => Return v | None => Raise (KeyError k) end
  | _ => Raise TypeError
  end.

(** [v == s] for a string [s]. *)
Definition py_eq_str (v : JSON) (s : string) : bool :=
  match v with
  | JStr s' => String.eqb s' s
  | _ => false
  end.

(** The elements a [for] loop or a comprehension draws from a value. *)
Definition py_iter (v : JSON) : Outcome (list JSON) :=
  match v with
  | JArr items => Return items
  | JObj d => Return (map (fun kv => JStr (fst kv)) d)
  | JStr s => Return (map JStr (chars_of s))
  | JNull | JBool _ | JInt _ | JFloat _ => Raise TypeError
  end.

(** [len(v)]. *)
Definition py_len (v : JSON) : Outcome nat :=
  match v with
  | JArr items => Return (length items)
  | JObj d => Return (length d)
  | JStr s => Return (length (chars_of s))
  | JNull | JBool _ | JInt _ | JFloat _ => Raise TypeError
  end.

(** The strings of an iterable handed to [str.join]; a non-string
    element is a [TypeError]. *)
Fixpoint all_strings (items : list JSON) : Outcome (list string) :=
  match items with
  | [] => Return []
  | JStr s :: rest =>
      match all_strings rest with
      | Return ss => Return (s :: ss)
      | Raise e => Raise e
      end
  | _ :: _ => Raise TypeError
  end.

(** [sep.join(v)]. *)
Definition py_join (sep : string) (v : JSON) : Outcome string :=
  match py_iter v with
  | Raise e => Raise e
  | Return items =>
      match all_strings items with
      | Return ss => Return (str_join sep ss)
      | Raise e => Raise e
      end
  end.

(** [Response.json()]. *)
Definition Response_json (r : Response) : Outcome JSON :=
  match body r with
  | JsonBody j => Return j
  | NonJsonBody _ => Raise JSONDecodeError
  end.

(** The guard shared by the three handlers of the module:
    [hasattr(e, "response") and hasattr(e.response, "json") and
     "error" in e.response.json()].
    Every httpx response has a [json] method, so the second test holds
    whenever the first does; [and] short-circuits. *)
Definition has_error_key (e : Exn) : Outcome bool :=
  match exn_response e with
  | None => Return false
  | Some r =>
      match Response_json r with
      | Return j => py_contains "error" j
      | Raise e' => Raise e'
      end
  end.

(** [e.response.json()["error"]]. *)
Definition error_value (e : Exn) : Outcome JSON :=
  match exn_response e with
  | None => Raise AttributeError
  | Some r =>
      match Response_json r with
      | Return j => py_getitem j "error"
      | Raise e' => Raise e'
      end
  end.

(** The values the public methods hand to their callers. *)
Inductive PyValue :=
| PyJSON (j : JSON)
| PyResponse (r : Response).

(** [v.json()]: a method of response objects, not of decoded data. *)
Definition py_json_method (v : PyValue) : Outcome JSON :=
  match v with
  | PyResponse r => Response_json r
  | PyJSON _ => Raise AttributeError
  end.

(** ** Configuration and client objects *)

(** Modelled from the spec: [Log10Config] of [log10.llm], whose source is
    not part of this module.  The spec's Configuration record:
    [{ base_url, api_token, organization_id }], read by the client as the
    attributes [url], [token] and [org_id]. *)
Record Log10Config := {
  url : string;
  token : string;
  org_id : string;
}.

(** The part of an [httpx.Client] the module touches: its [headers]. *)
Record HttpClient := {
  headers : list (string * string);
}.

(** The attributes of a [Feedback] instance. *)
Record FeedbackObj := {
  _log10_config : Log10Config;
  _http_client : HttpClient;
}.

(** A reference to a [Feedback] instance: its index in the [heap]. *)
Definition ref : Type := nat.

(** ** What the module imports

    The network behind [httpx.Client] (a state, and a transport that
    answers a request with a response or an exception and moves to a next
    state), [json.loads] and [json.dumps], [str()] of an exception, whether
    rich's parser of console markup accepts a string, and the
    configuration [Log10Config()] reads from the environment. *)
Class Externals := {
  NetState : Type;
  transport : NetState -> Request -> (Exn + Response) * NetState;
  json_loads : string -> option JSON;
  json_dumps : JSON -> string;
  exn_str : Exn -> string;
  markup_ok : string -> bool;
  default_config : Log10Config;
}.

(** ** Observable effects *)

(** A record handed to [logger.error]. *)
Inductive LogEntry :=
| LogException (e : Exn)
| LogValue (v : JSON).

(** A [rich] table: title, column headers, rows of cells. *)
Record Table := {
  title : string;
  columns : list string;
  rows : list (list string);
}.

(** What the commands write to standard output: [click.echo] of a string
    or of a value, [console.print] of a table or of a string. *)
Inductive OutItem :=
| EchoText (s : string)
| EchoValue (v : JSON)
| PrintTable (t : Table)
| PrintText (s : string).

Section Effects.
Context `{Ext : Externals}.

Record World := {
  net : NetState;               (* the network and the remote service *)
  sent : list Request;          (* every request issued, oldest first *)
  heap : list FeedbackObj;      (* the [Feedback] instances alive *)
  stderr : list LogEntry;       (* the records of the [LOG10] logger *)
  stdout : list OutItem;        (* standard output *)
}.

(** A computation: it runs in a world, ends by returning or by raising,
    and leaves a world behind either way. *)
Definition M (A : Type) : Type := World -> Outcome A * World.

Definition ret {A} (a : A) : M A := fun w => (Return a, w).

Definition raise {A} (e : Exn) : M A := fun w => (Raise e, w).

Definition bind {A B} (c : M A) (k : A -> M B) : M B :=
  fun w =>
    match c w with
    | (Return a, w') => k a w'
    | (Raise e, w') => (Raise e, w')
    end.

(** [try: body except Exception as e: handler e]. *)
Definition try_except {A} (body : M A) (handler : Exn -> M A) : M A :=
  fun w =>
    match body w with
    | (Return a, w') => (Return a, w')
    | (Raise e, w') => handler e w'
    end.

Definition lift {A} (o : Outcome A) : M A := fun w => (o, w).

End Effects.

Notation "x <- c ;; k" := (bind c (fun x => k))
  (at level 100, c at next level, right associativity).
Notation "c ;;; k" := (bind c (fun _ => k))
  (at level 100, right associativity).

Section Primitives.
Context `{Ext : Externals}.

(** One request on the wire: the transport answers it and the request
    joins the trace. *)
Definition http_send (req : Request) : M Response :=
  fun w =>
    let '(answer, net') := transport (net w) req in
    let w' := {| net := net'; sent := sent w ++ [req]; heap := heap w;
                 stderr := stderr w; stdout := stdout w |} in
    match answer with
    | inl e => (Raise e, w')
    | inr r => (Return r, w')
    end.

(** [client.post(url, json=payload)]: the client's headers go with it. *)
Definition Client_post (client : HttpClient) (url : string) (payload : JSON) : M Response :=
  http_send {| req_method := POST; req_url := url;
               req_headers := headers client; req_json := Some payload |}.

(** [client.get(url=url)]. *)
Definition Client_get (client : HttpClient) (url : string) : M Response :=
  http_send {| req_method := GET; req_url := url;
               req_headers := headers client; req_json := None |}.

(** httpx's [Response.is_success]. *)
Definition is_success (r : Response) : bool :=
  ((200 <=? status_code r)%Z && (status_code r <=? 299)%Z)%bool.

(** [res.raise_for_status()]. *)
Definition raise_for_status (r : Response) : M unit :=
  if is_success r then ret tt else raise (HTTPStatusError r).

(** [logger.error(x)]. *)
Definition logger_error (x : LogEntry) : M unit :=
  fun w => (Return tt,
            {| net := net w; sent := sent w; heap := heap w;
               stderr := stderr w ++ [x]; stdout := stdout w |}).

(** [click.echo(x)] and [console.print(x)]: both write to standard output. *)
Definition write_stdout (x : OutItem) : M unit :=
  fun w => (Return tt,
            {| net := net w; sent := sent w; heap := heap w;
               stderr := stderr w; stdout := stdout w ++ [x] |}).

(** Every cell of every row is console markup that rich accepts. *)
Definition cells_ok (t : Table) : bool :=
  forallb (forallb markup_ok) (rows t).

(** [console.print(table)].  rich renders the whole table before it
    writes anything, and it reads every string cell as console markup:
    a cell it cannot parse (a closing tag such as [[/bold]] that closes
    nothing) raises [MarkupError] and nothing is written.  The title and
    the headers of the one table this module prints are fixed words
    without a bracket. *)
Definition console_print_table (t : Table) : M unit :=
  if cells_ok t then write_stdout (PrintTable t) else raise MarkupError.

(** Allocation of a fresh instance. *)
Definition alloc (obj : FeedbackObj) : M ref :=
  fun w => (Return (length (heap w)),
            {| net := net w; sent := sent w; heap := heap w ++ [obj];
               stderr := stderr w; stdout := stdout w |}).

(** Reading the attributes of [self]. *)
Definition read_self (self : ref) : M FeedbackObj :=
  fun w =>
    match heap w !! self with
    | Some obj => (Return obj, w)
    | None => (Raise ReferenceError, w)
    end.

(** [json.loads(s)]. *)
Definition loads (s : string) : M JSON :=
  match json_loads s with
  | Some j => ret j
  | None => raise JSONDecodeError
  end.

End Primitives.

(** Sequencing of pure Python operations that may raise. *)
Definition obind {A B} (o : Outcome A) (k : A -> Outcome B) : Outcome B :=
  match o with
  | Return a => k a
  | Raise e => Raise e
  end.

Notation "x <~ c ;; k" := (obind c (fun x => k))
  (at level 100, c at next level, right associativity).

(** ** class Feedback *)

Module Feedback.
Section Methods.
Context `{Ext : Externals}.

Definition feedback_create_url : string := "/api/v1/feedback".

(** [Feedback(log10_config=None)]: [log10_config or Log10Config()], a
    fresh [httpx.Client()], and its three headers. *)
Definition __init__ (log10_config : option Log10Config) : M ref :=
  let config := match log10_config with Some c => c | None => default_config end in
  alloc {| _log10_config := config;
           _http_client :=
             {| headers := [("x-log10-token", token config);
                            ("x-log10-organization-id", org_id config);
                            ("Content-Type", "application/json")] |} |}.

(** The [except Exception as e] block of [_post_request] and of [list]:
    log [e]; when the guard holds, log the ["error"] value; re-raise [e].
    An exception raised by the guard or by the subscript leaves the
    block in place of [e]. *)
Definition log_and_reraise {A} (e : Exn) : M A :=
  logger_error (LogException e) ;;;
  b <- lift (has_error_key e) ;;
  (if b : bool
   then v <- lift (error_value e) ;; logger_error (LogValue v)
   else ret tt) ;;;
  raise e.

Definition _post_request (self : ref) (path : string) (json_payload : Dict) : M Response :=
  obj <- read_self self ;;
  let json_payload :=
    dict_setitem "organization_id" (JStr (org_id (_log10_config obj))) json_payload in
  try_except
    (res <- Client_post (_http_client obj) (url (_log10_config obj) +:+ path)
                        (JObj json_payload) ;;
     raise_for_status res ;;;
     ret res)
    log_and_reraise.

(** [comment] is [None] (also the default of the parameter) or a [str]. *)
Definition create (self : ref) (task_id : string) (values : JSON)
    (completion_tags_selector : list string) (comment : option string) : M PyValue :=
  let json_payload :=
    [("task_id", JStr task_id);
     ("json_values", values);
     ("completion_tags_selector", JArr (map JStr completion_tags_selector));
     ("comment", match comment with Some c => JStr c | None => JNull end)] in
  res <- _post_request self feedback_create_url json_payload ;;
  ret (PyResponse res).

(** [task_id] is accepted and not used. *)
Definition list (self : ref) (offset limit : Z) (task_id : option string) : M PyValue :=
  obj <- read_self self ;;
  let base_url := url (_log10_config obj) in
  let api_url := "/api/v1/feedback" in
  let full_url :=
    base_url +:+ api_url +:+ "?organization_id=" +:+ org_id (_log10_config obj)
      +:+ "&offset=" +:+ pretty offset +:+ "&limit=" +:+ pretty limit in
  try_except
    (res <- Client_get (_http_client obj) full_url ;;
     raise_for_status res ;;;
     ret (PyResponse res))
    log_and_reraise.

End Methods.
End Feedback.

(** ** The click commands *)

(** One entry of [data_for_table]. *)
Record TableItem := {
  item_id : JSON;
  item_task_name : JSON;
  item_feedback : string;
  item_matched_completion_ids : string;
}.

(** [[feedback for feedback in items if feedback["task_id"] == task_id]]. *)
Fixpoint select_task (task_id : string) (items : list JSON) : Outcome (list JSON) :=
  match items with
  | [] => Return []
  | feedback :: rest =>
      v <~ py_getitem feedback "task_id" ;;
      kept <~ select_task task_id rest ;;
      Return (if py_eq_str v task_id then feedback :: kept else kept)
  end.

(** A cell handed to [Table.add_row]: [None] is an empty cell, a string
    is itself, anything else is no renderable. *)
Definition render_cell (c : JSON) : Outcome string :=
  match c with
  | JStr s => Return s
  | JNull => Return ""
  | _ => Raise NotRenderableError
  end.

Definition Table_add_column (t : Table) (header : string) : Table :=
  {| title := title t; columns := columns t ++ [header]; rows := rows t |}.

Definition Table_add_row (t : Table) (c1 c2 c3 c4 : JSON) : Outcome Table :=
  r1 <~ render_cell c1 ;;
  r2 <~ render_cell c2 ;;
  r3 <~ render_cell c3 ;;
  r4 <~ render_cell c4 ;;
  Return {| title := title t; columns := columns t; rows := rows t ++ [[r1; r2; r3; r4]] |}.

Fixpoint add_rows (t : Table) (items : list TableItem) : Outcome Table :=
  match items with
  | [] => Return t
  | item :: rest =>
      t' <~ Table_add_row t (item_id item) (item_task_name item)
                          (JStr (item_feedback item))
                          (JStr (item_matched_completion_ids item)) ;;
      add_rows t' rest
  end.

Section Commands.
Context `{Ext : Externals}.

(** The body of [create_feedback]. *)
Definition create_feedback (task_id values completion_tags_selector comment : string) : M unit :=
  write_stdout (EchoText "Creating feedback") ;;;
  let tags := str_split "," completion_tags_selector in
  values <- loads values ;;
  self <- Feedback.__init__ None ;;
  feedback <- Feedback.create self task_id values tags (Some comment) ;;
  j <- lift (py_json_method feedback) ;;
  write_stdout (EchoValue j).

(** The command click builds around it: [--comment] is optional and
    defaults to the empty string. *)
Definition create_feedback_command
    (task_id values completion_tags_selector : string) (comment : option string) : M unit :=
  create_feedback task_id values completion_tags_selector
                  (match comment with Some c => c | None => "" end).

(** The dict appended to [data_for_table] for one record. *)
Definition table_item (feedback : JSON) : Outcome TableItem :=
  id <~ py_getitem feedback "id" ;;
  task_name <~ py_getitem feedback "task_name" ;;
  json_values <~ py_getitem feedback "json_values" ;;
  ids <~ py_getitem feedback "matched_completion_ids" ;;
  joined <~ py_join "," ids ;;
  Return {| item_id := id; item_task_name := task_name;
            item_feedback := json_dumps json_values;
            item_matched_completion_ids := joined |}.

Fixpoint table_items (items : list JSON) : Outcome (list TableItem) :=
  match items with
  | [] => Return []
  | feedback :: rest =>
      item <~ table_item feedback ;;
      more <~ table_items rest ;;
      Return (item :: more)
  end.

(** [if task_id:] on the option of the command. *)
Definition truthy (task_id : option string) : bool :=
  match task_id with
  | None => false
  | Some s => negb (String.eqb s "")
  end.

(** The body of [list_feedback].  The handler ends in [return]: the
    [try] statement yields [None] then, and the response otherwise.  The
    total line is a fixed prefix and a decimal count: it holds no markup
    tag for rich to reject. *)
Definition list_feedback (offset limit : Z) (task_id : option string) : M unit :=
  fetched <-
    try_except
      (self <- Feedback.__init__ None ;;
       res <- Feedback.list self offset limit None ;;
       ret (Some res))
      (fun e =>
         write_stdout (EchoText ("Error fetching feedback " +:+ exn_str e)) ;;;
         b <- lift (has_error_key e) ;;
         (if b : bool
          then v <- lift (error_value e) ;; write_stdout (EchoValue v)
          else ret tt) ;;;
         ret None) ;;
  match fetched with
  | None => ret tt
  | Some res =>
      j <- lift (py_json_method res) ;;
      feedback_data <- lift (py_getitem j "data") ;;
      feedback_data <-
        (if truthy task_id
         then items <- lift (py_iter feedback_data) ;;
              kept <- lift (select_task (match task_id with Some s => s | None => "" end) items) ;;
              ret (JArr kept)
         else ret feedback_data) ;;
      items <- lift (py_iter feedback_data) ;;
      data_for_table <- lift (table_items items) ;;
      let table := {| title := "Feedback"; columns := []; rows := [] |} in
      let table := Table_add_column table "ID" in
      let table := Table_add_column table "Task Name" in
      let table := Table_add_column table "Feedback" in
      let table := Table_add_column table "Completion ID" in
      table <- lift (add_rows table data_for_table) ;;
      console_print_table table ;;;
      n <- lift (py_len feedback_data) ;;
      write_stdout (PrintText ("Total feedback: " +:+ pretty n))
  end.

(** The command click builds around it: [--offset] defaults to 0,
    [--limit] to 25, [--task_id] to [None]. *)
Definition list_feedback_command (offset limit : option Z) (task_id : option string) : M unit :=
  list_feedback (match offset with Some n => n | None => 0 end)
                (match limit with Some n => n | None => 25 end)
                task_id.

End Commands.

(** ** Vocabulary of the statements *)

(** What the [except] block of the client writes to the log for [e]. *)
Definition handler_logs (e : Exn) : list LogEntry :=
  LogException e ::
  match has_error_key e with
  | Return true => match error_value e with Return v => [LogValue v] | Raise _ => [] end
  | _ => []
  end.

(** The exception that leaves the [except] block entered with [e]. *)
Definition handler_raises (e : Exn) : Exn :=
  match has_error_key e with
  | Raise e' => e'
  | Return false => e
  | Return true => match error_value e with Return _ => e | Raise e' => e' end
  end.

(** The request [Feedback.list] puts on the wire. *)
Definition list_request (obj : FeedbackObj) (offset limit : Z) : Request :=
  {| req_method := GET;
     req_url := url (_log10_config obj) +:+ "/api/v1/feedback" +:+ "?organization_id="
                +:+ org_id (_log10_config obj) +:+ "&offset=" +:+ pretty offset
                +:+ "&limit=" +:+ pretty limit;
     req_headers := headers (_http_client obj);
     req_json := None |}.

(** The request [Feedback.create] puts on the wire. *)
Definition create_request (obj : FeedbackObj) (task_id : string) (values : JSON)
    (tags : list string) (comment : option string) : Request :=
  {| req_method := POST;
     req_url := url (_log10_config obj) +:+ "/api/v1/feedback";
     req_headers := headers (_http_client obj);
     req_json :=
       Some (JObj [("task_id", JStr task_id);
                   ("json_values", values);
                   ("completion_tags_selector", JArr (map JStr tags));
                   ("comment", match comment with Some c => JStr c | None => JNull end);
                   ("organization_id", JStr (org_id (_log10_config obj)))]) |}.

(** The instance [Feedback(log10_config)] builds. *)
Definition new_instance `{Ext : Externals} (log10_config : option Log10Config) : FeedbackObj :=
  let config := match log10_config with Some c => c | None => default_config end in
  {| _log10_config := config;
     _http_client :=
       {| headers := [("x-log10-token", token config);
                      ("x-log10-organization-id", org_id config);
                      ("Content-Type", "application/json")] |} |}.

(** A feedback record of the service, as the list command reads it. *)
Record FeedbackRecord := {
  fr_id : string;
  fr_task_id : string;
  fr_task_name : string;
  fr_json_values : JSON;
  fr_matched_completion_ids : list string;
}.

(** [j] is the JSON object of the record [r] (other keys may be present). *)
Definition represents (j : JSON) (r : FeedbackRecord) : Prop :=
  exists d, j = JObj d /\
    dict_get "id" d = Some (JStr (fr_id r)) /\
    dict_get "task_id" d = Some (JStr (fr_task_id r)) /\
    dict_get "task_name" d = Some (JStr (fr_task_name r)) /\
    dict_get "json_values" d = Some (fr_json_values r) /\
    dict_get "matched_completion_ids" d = Some (JArr (map JStr (fr_matched_completion_ids r))).

(** The table row of a record: ID, Task Name, Feedback, Completion ID. *)
Definition record_row `{Ext : Externals} (r : FeedbackRecord) : list string :=
  [fr_id r; fr_task_name r; json_dumps (fr_json_values r);
   str_join "," (fr_matched_completion_ids r)].

Definition has_task_id (t : string) (r : FeedbackRecord) : bool :=
  String.eqb (fr_task_id r) t.

(** The table the list command prints for the records [rs]. *)
Definition feedback_table `{Ext : Externals} (rs : list FeedbackRecord) : Table :=
  {| title := "Feedback";
     columns := ["ID"; "Task Name"; "Feedback"; "Completion ID"];
     rows := map record_row rs |}.

(** The [data_for_table] entry of a record. *)
Definition item_of `{Ext : Externals} (r : FeedbackRecord) : TableItem :=
  {| item_id := JStr (fr_id r); item_task_name := JStr (fr_task_name r);
     item_feedback := json_dumps (fr_json_values r);
     item_matched_completion_ids := str_join "," (fr_matched_completion_ids r) |}.

(** A caller of one instance: any sequence of [create] and [list] calls,
    each exception caught by the caller. *)
Inductive Call :=
| CallCreate (task_id : string) (values : JSON) (tags : list string) (comment : option string)
| CallList (offset limit : Z) (task_id : option string).

Section Callers.
Context `{Ext : Externals}.

Definition run_call (self : ref) (c : Call) : M PyValue :=
  match c with
  | CallCreate task_id values tags comment => Feedback.create self task_id values tags comment
  | CallList offset limit task_id => Feedback.list self offset limit task_id
  end.

Fixpoint run_calls (self : ref) (cs : list Call) (w : World) : World :=
  match cs with
  | [] => w
  | c :: rest => run_calls self rest (snd (run_call self c w))
  end.

(** [Feedback().list(offset=offset, limit=limit)], as the list command
    evaluates it. *)
Definition fetch (offset limit : Z) : M PyValue :=
  self <- Feedback.__init__ None ;;
  Feedback.list self offset limit None.

(** The world after a request of the client: the transport has moved on,
    the request is in the trace, [logs] are in the log. *)
Definition after_request (w : World) (req : Request) (logs : list LogEntry) : World :=
  {| net := snd (transport (net w) req); sent := sent w ++ [req]; heap := heap w;
     stderr := stderr w ++ logs; stdout := stdout w |}.

Definition with_stdout (w : World) (out : list OutItem) : World :=
  {| net := net w; sent := sent w; heap := heap w; stderr := stderr w;
     stdout := stdout w ++ out |}.

End Callers.

(** What the [try] block ends with for an answer of the transport: the
    response, or the exception that enters the [except] block. *)
Definition attempt (answer : Exn + Response) : Exn + Response :=
  match answer with
  | inl e => inl e
  | inr r => if is_success r then inr r else inl (HTTPStatusError r)
  end.

(** ** A scripted environment for concrete runs

    The network answers every request by a fixed function of the request;
    the codec stand-ins agree with [json.loads] on the two strings the
    runs below pass to it, and the markup stand-in (no closing tag at
    all) agrees with rich on the cells of the runs. *)
Definition scripted (answer : Request -> Exn + Response) : Externals :=
  {| NetState := unit;
     transport := fun _ req => (answer req, tt);
     json_loads := fun s => if String.eqb s "{}" then Some (JObj []) else None;
     json_dumps := fun j => match j with JObj [] => "{}" | _ => "<json>" end;
     markup_ok := fun s => negb (is_substring "[/" s);
     exn_str := fun e => match e with
                         | RequestError msg => msg
                         | HTTPStatusError _ => "HTTPStatusError"
                         | _ => "Exception"
                         end;
     default_config := {| url := "https://log10.io"; token := "t0k3n"; org_id := "org-1" |} |}.

Definition empty_world (answer : Request -> Exn + Response) : @World (scripted answer) :=
  @Build_World (scripted answer) tt [] [] [] [].

(** A world with one live instance, built from the default configuration. *)
Definition one_instance (answer : Request -> Exn + Response) : @World (scripted answer) :=
  snd (@Feedback.__init__ (scripted answer) None (empty_world answer)).

Definition bad_gateway : Response :=
  {| status_code := 502; body := NonJsonBody "<html>Bad Gateway</html>" |}.

Definition quota_exceeded : Response :=
  {| status_code := 429; body := JsonBody (JObj [("error", JStr "quota exceeded")]) |}.

Definition record_a : JSON :=
  JObj [("id", JStr "f1"); ("task_id", JStr "a"); ("task_name", JStr "summarize");
        ("json_values", JObj []); ("matched_completion_ids", JArr [JStr "c1"; JStr "c2"])].

Definition record_b : JSON :=
  JObj [("id", JStr "f2"); ("task_id", JStr "b"); ("task_name", JStr "translate");
        ("json_values", JObj []); ("matched_completion_ids", JArr [])].

Definition page_ab : Response :=
  {| status_code := 200; body := JsonBody (JObj [("data", JArr [record_a; record_b])]) |}.

Definition created : Response :=
  {| status_code := 200; body := JsonBody (JObj [("id", JStr "f3")]) |}.

Definition no_content : Response :=
  {| status_code := 204; body := NonJsonBody "" |}.

Definition feedback_a : FeedbackRecord :=
  {| fr_id := "f1"; fr_task_id := "a"; fr_task_name := "summarize";
     fr_json_values := JObj []; fr_matched_completion_ids := ["c1"; "c2"] |}.

Definition feedback_b : FeedbackRecord :=
  {| fr_id := "f2"; fr_task_id := "b"; fr_task_name := "translate";
     fr_json_values := JObj []; fr_matched_completion_ids := [] |}.

(** A service in good health: a page of two records for a GET, the new
    record's id for a POST. *)
Definition healthy (req : Request) : Exn + Response :=
  match req_method req with
  | GET => inr page_ab
  | POST => inr created
  end.

Definition gateway_down (_ : Request) : Exn + Response := inr bad_gateway.

Definition over_quota (_ : Request) : Exn + Response := inr quota_exceeded.

(** ** Further vocabulary *)

(** The request a call puts on the wire. *)
Definition call_request (obj : FeedbackObj) (c : Call) : Request :=
  match c with
  | CallCreate task_id values tags comment => create_request obj task_id values tags comment
  | CallList offset limit _ => list_request obj offset limit
  end.

(** [None], a [bool] or a number: the JSON values that are no container. *)
Definition json_scalar (j : JSON) : bool :=
  match j with
  | JNull | JBool _ | JInt _ | JFloat _ => true
  | JStr _ | JArr _ | JObj _ => false
  end.

(** [j] is an object that binds the key [k]. *)
Definition binds_key (k : string) (j : JSON) : Prop :=
  exists d v, j = JObj d /\ dict_get k d = Some v.

(** A network on which no connection can be made. *)
Definition unreachable (_ : Request) : Exn + Response :=
  inl (RequestError "connection refused").

Definition internal_error : Response :=
  {| status_code := 500; body := JsonBody (JObj [("detail", JStr "boom")]) |}.

Definition failing (_ : Request) : Exn + Response := inr internal_error.

Definition scalar_error : Response :=
  {| status_code := 500; body := JsonBody (JInt 0) |}.

Definition array_error : Response :=
  {| status_code := 400; body := JsonBody (JArr [JStr "error"; JStr "bad offset"]) |}.

(** A page whose second record has no [task_id]. *)
Definition record_untasked : JSON :=
  JObj [("id", JStr "f9"); ("task_name", JStr "orphan");
        ("json_values", JObj []); ("matched_completion_ids", JArr [])].

Definition page_untasked : Response :=
  {| status_code := 200;
     body := JsonBody (JObj [("data", JArr [record_a; record_untasked])]) |}.

Definition page_without_data : Response :=
  {| status_code := 200; body := JsonBody (JObj [("items", JArr [])]) |}.

(** A page whose one record has a task name that closes a markup tag
    nothing opened. *)
Definition record_tagged : JSON :=
  JObj [("id", JStr "f7"); ("task_id", JStr "a"); ("task_name", JStr "[/bold]");
        ("json_values", JObj []); ("matched_completion_ids", JArr [])].

Definition feedback_tagged : FeedbackRecord :=
  {| fr_id := "f7"; fr_task_id := "a"; fr_task_name := "[/bold]";
     fr_json_values := JObj []; fr_matched_completion_ids := [] |}.

Definition page_tagged : Response :=
  {| status_code := 200; body := JsonBody (JObj [("data", JArr [record_tagged])]) |}.

(** A service that answers every request with the given response. *)
Definition always (r : Response) (_ : Request) : Exn + Response := inr r.

(** A computation whose only effect is to write to standard output. *)
Definition stdout_only `{Ext : Externals} {A} (c : M A) : Prop :=
  forall w, exists out, snd (c w) = with_stdout w out.

(** The number of occurrences of a character in a string. *)
Fixpoint count_char (c : ascii) (s : string) : nat :=
  match s with
  | EmptyString => 0%nat
  | String c' rest => ((if Ascii.eqb c' c then 1 else 0) + count_char c rest)%nat
  end.

(** * Properties *)

(** ** The client in closed form *)

Section ClientFacts.
Context `{Ext : Externals}.

Ltac run := unfold bind, ret, raise, lift, try_except, logger_error, write_stdout in *; simpl in *.

(** The [except] block always ends by raising, after writing to the log. *)
Lemma log_and_reraise_run {A} (e : Exn) (w : World) :
  Feedback.log_and_reraise (A := A) e w =
    (Raise (handler_raises e),
     {| net := net w; sent := sent w; heap := heap w;
        stderr := stderr w ++ handler_logs e; stdout := stdout w |}).
Proof.
  unfold Feedback.log_and_reraise, handler_raises, handler_logs. run.
  destruct (has_error_key e) as [[|]|e1]; simpl; try reflexivity.
  - destruct (error_value e) as [v|e2]; simpl; [|reflexivity].
    rewrite <- app_assoc. reflexivity.
Qed.

(** The guarded request both methods make: one request on the wire,
    then either the response or the [except] block. *)
Lemma guarded_request_run {A} (req : Request) (f : Response -> A) (w : World) :
  try_except (res <- http_send req ;; raise_for_status res ;;; ret (f res))
             Feedback.log_and_reraise w =
    match attempt (fst (transport (net w) req)) with
    | inr r => (Return (f r), after_request w req [])
    | inl e => (Raise (handler_raises e), after_request w req (handler_logs e))
    end.
Proof.
  unfold try_except, bind, http_send, after_request, attempt, raise_for_status.
  destruct (transport (net w) req) as [[e|r] n']; simpl.
  - rewrite log_and_reraise_run. reflexivity.
  - destruct (is_success r); unfold ret, raise; simpl.
    + rewrite app_nil_r. reflexivity.
    + rewrite log_and_reraise_run. reflexivity.
Qed.

(** [Feedback.list] on a live instance, in closed form. *)
Lemma list_run (w : World) self obj offset limit task_id :
  heap w !! self = Some obj ->
  Feedback.list self offset limit task_id w =
    let req := list_request obj offset limit in
    match attempt (fst (transport (net w) req)) with
    | inr r => (Return (PyResponse r), after_request w req [])
    | inl e => (Raise (handler_raises e), after_request w req (handler_logs e))
    end.
Proof.
  intros Hself. unfold Feedback.list, bind at 1, read_self. rewrite Hself.
  unfold Client_get. apply (guarded_request_run (list_request obj offset limit) PyResponse).
Qed.

(** [Feedback.create] on a live instance, in closed form. *)
Lemma create_run (w : World) self obj task_id values tags comment :
  heap w !! self = Some obj ->
  Feedback.create self task_id values tags comment w =
    let req := create_request obj task_id values tags comment in
    match attempt (fst (transport (net w) req)) with
    | inr r => (Return (PyResponse r), after_request w req [])
    | inl e => (Raise (handler_raises e), after_request w req (handler_logs e))
    end.
Proof.
  intros Hself. unfold Feedback.create, Feedback._post_request.
  unfold bind at 1. unfold bind at 1. unfold read_self. rewrite Hself.
  unfold Client_post, Feedback.feedback_create_url. simpl dict_setitem.
  pose proof (guarded_request_run (create_request obj task_id values tags comment) (fun r => r) w) as G.
  unfold create_request in *. simpl. rewrite G.
  destruct (attempt _); reflexivity.
Qed.

(** On the exception that leaves the [except] block, the guard of the
    handlers evaluates without raising, and so does the subscript when
    the guard holds. *)
Lemma handler_raises_guard (e : Exn) :
  has_error_key (handler_raises e) = Return false \/
  (has_error_key (handler_raises e) = Return true /\
   exists v, error_value (handler_raises e) = Return v).
Proof.
  unfold handler_raises.
  destruct (has_error_key e) as [[|]|e1] eqn:Hk.
  - destruct (error_value e) as [v|e2] eqn:Hv.
    + right. eauto.
    + left. unfold error_value in Hv. destruct (exn_response e) as [r|]; [|by inversion Hv].
      destruct (Response_json r) as [j|e3] eqn:Hj.
      * destruct j; simpl in Hv; try (inversion Hv; subst; reflexivity).
        destruct (dict_get "error" fields); inversion Hv; subst; reflexivity.
      * inversion Hv; subst. unfold Response_json in Hj.
        destruct (body r); inversion Hj; subst; reflexivity.
  - by left.
  - left. unfold has_error_key in Hk. destruct (exn_response e) as [r|]; [|by inversion Hk].
    destruct (Response_json r) as [j|e3] eqn:Hj.
    + destruct j; simpl in Hk; inversion Hk; subst; reflexivity.
    + inversion Hk; subst. unfold Response_json in Hj.
      destruct (body r); inversion Hj; subst; reflexivity.
Qed.

(** The list command's fetch: a fresh instance, then [list] on it. *)
Lemma fetch_run (w : World) offset limit :
  fetch offset limit w =
    Feedback.list (length (heap w)) offset limit None
      {| net := net w; sent := sent w; heap := heap w ++ [new_instance None];
         stderr := stderr w; stdout := stdout w |}.
Proof. reflexivity. Qed.

Lemma fresh_instance_lookup (h : list FeedbackObj) (obj : FeedbackObj) :
  (h ++ [obj]) !! length h = Some obj.
Proof. induction h; simpl; auto. Qed.

End ClientFacts.

(** ** The client *)

Section ClientProperties.
Context `{Ext : Externals}.

(** C2.  On a live instance, [Feedback.list] puts exactly one request on
    the wire, whatever the transport answers: a GET of
    [<url>/api/v1/feedback?organization_id=<org_id>&offset=<offset>&limit=<limit>]
    with the instance's headers and no body; and the whole run (request,
    result, log) is the same for every [task_id], [None] included.  This
    holds for all integers [offset] and [limit], so in particular for
    [offset >= 0] and [limit > 0]: the method validates neither. *)
Theorem list_sends_one_get_without_task_id
    (w : World) (self : ref) (obj : FeedbackObj) (offset limit : Z) (task_id : option string) :
  heap w !! self = Some obj ->
  sent (snd (Feedback.list self offset limit task_id w)) =
    sent w ++
      [{| req_method := GET;
          req_url := url (_log10_config obj) +:+ "/api/v1/feedback"
                     +:+ "?organization_id=" +:+ org_id (_log10_config obj)
                     +:+ "&offset=" +:+ pretty offset +:+ "&limit=" +:+ pretty limit;
          req_headers := headers (_http_client obj);
          req_json := None |}]
  /\ Feedback.list self offset limit task_id w = Feedback.list self offset limit None w.
Proof.
  intros Hself. split.
  - rewrite (list_run w self obj offset limit task_id Hself). simpl.
    destruct (attempt _); reflexivity.
  - reflexivity.
Qed.

(** C4.  On a live instance, [Feedback.create] puts exactly one request
    on the wire, whatever the transport answers: a POST to
    [<url>/api/v1/feedback] whose JSON body has exactly the keys
    [task_id], [json_values], [completion_tags_selector], [comment] and
    [organization_id], bound to the arguments and to the [org_id] of the
    held configuration; [comment] is bound to [null] when no comment was
    supplied. *)
Theorem create_sends_one_post_with_five_keys
    (w : World) (self : ref) (obj : FeedbackObj) (task_id : string) (values : JSON)
    (completion_tags_selector : list string) (comment : option string) :
  heap w !! self = Some obj ->
  exists payload,
    sent (snd (Feedback.create self task_id values completion_tags_selector comment w)) =
      sent w ++
        [{| req_method := POST;
            req_url := url (_log10_config obj) +:+ "/api/v1/feedback";
            req_headers := headers (_http_client obj);
            req_json := Some (JObj payload) |}]
    /\ dict_keys payload =
         ["task_id"; "json_values"; "completion_tags_selector"; "comment"; "organization_id"]
    /\ dict_get "task_id" payload = Some (JStr task_id)
    /\ dict_get "json_values" payload = Some values
    /\ dict_get "completion_tags_selector" payload =
         Some (JArr (map JStr completion_tags_selector))
    /\ dict_get "comment" payload =
         Some (match comment with Some c => JStr c | None => JNull end)
    /\ dict_get "organization_id" payload = Some (JStr (org_id (_log10_config obj))).
Proof.
  intros Hself.
  rewrite (create_run w self obj task_id values completion_tags_selector comment Hself).
  eexists. split.
  - simpl. destruct (attempt _); reflexivity.
  - repeat split; reflexivity.
Qed.


(** C8.  Two calls of [Feedback.list] with the same arguments on the same
    live instance, the network being after the first call in the state
    it was in before it: both calls send the same request and end with
    the same result, and no attribute of any instance has changed. *)
Theorem list_twice_is_identical
    (w : World) (self : ref) (obj : FeedbackObj) (offset limit : Z) (task_id : option string) :
  heap w !! self = Some obj ->
  let first := Feedback.list self offset limit task_id w in
  let second := Feedback.list self offset limit task_id (snd first) in
  net (snd first) = net w ->
  fst second = fst first
  /\ sent (snd first) = sent w ++ [list_request obj offset limit]
  /\ sent (snd second) = sent (snd first) ++ [list_request obj offset limit]
  /\ heap (snd second) = heap w
  /\ net (snd second) = net w.
Proof.
  intros Hself first second Hnet.
  pose (req := list_request obj offset limit).
  assert (Hfirst : first =
            match attempt (fst (transport (net w) req)) with
            | inr r => (Return (PyResponse r), after_request w req [])
            | inl e => (Raise (handler_raises e), after_request w req (handler_logs e))
            end) by (apply list_run; exact Hself).
  assert (Hframe : heap (snd first) = heap w
                   /\ sent (snd first) = sent w ++ [req]
                   /\ net (snd first) = snd (transport (net w) req)).
  { rewrite Hfirst. destruct (attempt _); simpl; auto. }
  destruct Hframe as (Hheap & Hsent & Hnet1).
  assert (Hself1 : heap (snd first) !! self = Some obj) by (rewrite Hheap; exact Hself).
  assert (Hsecond : second =
            match attempt (fst (transport (net w) req)) with
            | inr r => (Return (PyResponse r), after_request (snd first) req [])
            | inl e => (Raise (handler_raises e), after_request (snd first) req (handler_logs e))
            end).
  { subst second. rewrite (list_run (snd first) self obj offset limit task_id Hself1).
    simpl. rewrite Hnet. reflexivity. }
  rewrite Hsecond. rewrite Hfirst at 1.
  destruct (attempt (fst (transport (net w) req))); simpl;
    rewrite Hnet; rewrite <- Hnet1; auto.
Qed.

(** One call leaves the instances alone and sends one request with the
    headers of the instance. *)
Lemma run_call_frame (w : World) (self : ref) (obj : FeedbackObj) (c : Call) :
  heap w !! self = Some obj ->
  heap (snd (run_call self c w)) = heap w
  /\ exists req, sent (snd (run_call self c w)) = sent w ++ [req]
                 /\ req_headers req = headers (_http_client obj).
Proof.
  intros Hself. destruct c as [t v tags c | offset limit t]; simpl.
  - rewrite (create_run w self obj t v tags c Hself). simpl.
    destruct (attempt _); simpl; (split; [reflexivity | eexists; split; reflexivity]).
  - rewrite (list_run w self obj offset limit t Hself). simpl.
    destruct (attempt _); simpl; (split; [reflexivity | eexists; split; reflexivity]).
Qed.

Lemma run_calls_frame (self : ref) (obj : FeedbackObj) (cs : list Call) :
  forall w : World,
    heap w !! self = Some obj ->
    heap (run_calls self cs w) = heap w
    /\ exists reqs, sent (run_calls self cs w) = sent w ++ reqs
                    /\ length reqs = length cs
                    /\ Forall (fun req => req_headers req = headers (_http_client obj)) reqs.
Proof.
  induction cs as [|c cs IH]; intros w Hself; simpl.
  - split; [reflexivity|]. exists []. rewrite app_nil_r. auto.
  - destruct (run_call_frame w self obj c Hself) as (Hheap & req & Hsent & Hreq).
    destruct (IH (snd (run_call self c w))) as (Hheap' & reqs & Hsent' & Hlen & Hall).
    { rewrite Hheap. exact Hself. }
    split; [congruence|].
    exists (req :: reqs). rewrite Hsent', Hsent, <- app_assoc. simpl.
    repeat split; auto.
Qed.

(** C9.  [Feedback(log10_config)] holds the configuration it was given
    (or the default one) and the three headers [x-log10-token],
    [x-log10-organization-id] and [Content-Type: application/json] built
    from it; after any sequence of [create] and [list] calls on the
    instance the attributes of every instance are what they were, each
    call has sent one request, and every request carries exactly those
    three headers. *)
Theorem configuration_and_headers_are_fixed
    (w : World) (log10_config : option Log10Config) (cs : list Call) :
  let config := match log10_config with Some c => c | None => default_config end in
  let fixed := [("x-log10-token", token config);
                ("x-log10-organization-id", org_id config);
                ("Content-Type", "application/json")] in
  exists self w0,
    Feedback.__init__ log10_config w = (Return self, w0)
    /\ heap w0 !! self = Some {| _log10_config := config;
                                 _http_client := {| headers := fixed |} |}
    /\ heap (run_calls self cs w0) = heap w0
    /\ exists reqs, sent (run_calls self cs w0) = sent w ++ reqs
                    /\ length reqs = length cs
                    /\ Forall (fun req => req_headers req = fixed) reqs.
Proof.
  intros config fixed.
  eexists _, _. split; [reflexivity|]. simpl.
  assert (Hself : (heap w ++ [new_instance log10_config]) !! length (heap w)
                  = Some (new_instance log10_config)) by apply fresh_instance_lookup.
  split; [exact Hself|].
  match goal with |- heap (run_calls ?s cs ?w0) = _ /\ _ =>
    destruct (run_calls_frame s (new_instance log10_config) cs w0 Hself) as (Hh & reqs & Hs & Hl & Ha)
  end.
  split; [exact Hh|]. exists reqs. auto.
Qed.

End ClientProperties.

(** ** The commands *)

Section CommandProperties.
Context `{Ext : Externals}.

(** The fetch writes nothing to standard output. *)
Lemma fetch_frame (w w1 : World) offset limit (o : Outcome PyValue) :
  fetch offset limit w = (o, w1) -> stdout w1 = stdout w.
Proof.
  rewrite fetch_run.
  erewrite list_run by apply fresh_instance_lookup. simpl.
  destruct (attempt _); intros H; inversion H; reflexivity.
Qed.

(** What the fetch raises has left the [except] block of [list]. *)
Lemma fetch_raises_guarded (w w1 : World) offset limit (e : Exn) :
  fetch offset limit w = (Raise e, w1) -> exists e0, e = handler_raises e0.
Proof.
  rewrite fetch_run.
  erewrite list_run by apply fresh_instance_lookup. simpl.
  destruct (attempt _); intros H; inversion H. eauto.
Qed.

(** C7.  Whenever the fetch of the list command raises an exception [e],
    the command returns normally; it has written to standard output the
    line ["Error fetching feedback <e>"], followed at most by the
    ["error"] value of the response, and nothing else: no table and no
    total line.  The fetch itself writes nothing to standard output. *)
Theorem list_feedback_reports_fetch_errors
    (w w1 : World) (offset limit : Z) (task_id : option string) (e : Exn) :
  fetch offset limit w = (Raise e, w1) ->
  exists lines,
    list_feedback offset limit task_id w =
      (Return tt,
       with_stdout w1 (EchoText ("Error fetching feedback " +:+ exn_str e) :: lines))
    /\ (lines = [] \/ exists v, lines = [EchoValue v])
    /\ stdout w1 = stdout w.
Proof.
  intros Hfetch.
  pose proof (fetch_frame _ _ _ _ _ Hfetch) as Hout.
  destruct (fetch_raises_guarded _ _ _ _ _ Hfetch) as [e0 ->].
  rewrite fetch_run in Hfetch.
  unfold list_feedback. unfold bind at 1. unfold try_except.
  unfold bind at 1. unfold Feedback.__init__, alloc. unfold bind at 1.
  unfold new_instance in Hfetch. rewrite Hfetch.
  unfold bind, write_stdout, lift, ret, with_stdout. simpl.
  destruct (handler_raises_guard e0) as [Hk | [Hk [v Hv]]]; rewrite Hk.
  - exists []. split; [reflexivity|]. split; [left; reflexivity | exact Hout].
  - rewrite Hv. exists [EchoValue v]. simpl. rewrite <- app_assoc. simpl.
    split; [reflexivity|]. split; [right; eexists; reflexivity | exact Hout].
Qed.

(** C6.  In [create_feedback], when [values] is not valid JSON the
    command ends by raising the decode error, having echoed
    ["Creating feedback"] and sent no request; and an exception raised
    by the call of [Feedback().create] or by [.json()] on its result
    leaves the command as it is: nothing catches it. *)
Theorem create_feedback_errors_propagate
    (w : World) (task_id values completion_tags_selector comment : string) :
  let started := with_stdout w [EchoText "Creating feedback"] in
  let call v :=
    (self <- Feedback.__init__ None ;;
     Feedback.create self task_id v (str_split "," completion_tags_selector) (Some comment)) in
  (json_loads values = None ->
     create_feedback task_id values completion_tags_selector comment w
       = (Raise JSONDecodeError, started)
     /\ sent started = sent w)
  /\ (forall v e w1,
        json_loads values = Some v ->
        call v started = (Raise e, w1) ->
        create_feedback task_id values completion_tags_selector comment w = (Raise e, w1))
  /\ (forall v res e w1,
        json_loads values = Some v ->
        call v started = (Return res, w1) ->
        py_json_method res = Raise e ->
        create_feedback task_id values completion_tags_selector comment w = (Raise e, w1)).
Proof.
  intros started call. unfold create_feedback, loads.
  split; [|split].
  - intros ->. split; reflexivity.
  - intros v e w1 -> Hcall. subst call started. simpl in Hcall.
    unfold bind at 1. simpl. unfold bind at 1. simpl.
    unfold bind at 1 in Hcall. simpl in Hcall.
    unfold bind at 1. simpl. unfold bind at 1. unfold with_stdout in Hcall. rewrite Hcall. reflexivity.
  - intros v res e w1 -> Hcall Hjson. subst call started. simpl in Hcall.
    unfold bind at 1 in Hcall. simpl in Hcall.
    unfold bind at 1. simpl. unfold bind at 1. simpl.
    unfold bind at 1. simpl. unfold bind at 1. unfold with_stdout in Hcall. rewrite Hcall.
    unfold bind, lift. rewrite Hjson. reflexivity.
Qed.

End CommandProperties.

Section ListCommandProperties.
Context `{Ext : Externals}.

Lemma all_strings_map (ss : list string) : all_strings (map JStr ss) = Return ss.
Proof. induction ss as [|s ss IH]; simpl; [reflexivity|]. rewrite IH. reflexivity. Qed.

Lemma table_item_represents (j : JSON) (r : FeedbackRecord) :
  represents j r -> table_item j = Return (item_of r).
Proof.
  intros (d & -> & Hid & _ & Hname & Hvalues & Hids).
  unfold table_item, py_getitem, obind, py_join. simpl.
  rewrite Hid, Hname, Hvalues, Hids. simpl. rewrite all_strings_map. reflexivity.
Qed.

Lemma table_items_represents (items : list JSON) (rs : list FeedbackRecord) :
  Forall2 represents items rs -> table_items items = Return (map item_of rs).
Proof.
  induction 1 as [|j r items rs Hj _ IH]; simpl; [reflexivity|].
  rewrite (table_item_represents j r Hj), IH. reflexivity.
Qed.

Lemma select_task_represents (t : string) (items : list JSON) (rs : list FeedbackRecord) :
  Forall2 represents items rs ->
  exists kept, select_task t items = Return kept
               /\ Forall2 represents kept (List.filter (has_task_id t) rs).
Proof.
  induction 1 as [|j r items rs Hj _ (kept & Hkept & IH)]; simpl.
  - exists []. split; [reflexivity | constructor].
  - pose proof Hj as (d & -> & _ & Htask & _).
    unfold py_getitem, obind. simpl. rewrite Htask, Hkept. simpl.
    unfold has_task_id. destruct (String.eqb (fr_task_id r) t).
    + exists (JObj d :: kept). split; [reflexivity | constructor; assumption].
    + exists kept. split; [reflexivity | assumption].
Qed.

Lemma add_rows_items (rs : list FeedbackRecord) :
  forall t : Table,
    add_rows t (map item_of rs) =
      Return {| title := title t; columns := columns t;
                rows := rows t ++ map record_row rs |}.
Proof.
  induction rs as [|r rs IH]; intros t; simpl.
  - rewrite app_nil_r. destruct t; reflexivity.
  - unfold Table_add_row, obind. simpl. rewrite IH. simpl.
    rewrite <- app_assoc. reflexivity.
Qed.

(** What the command does with the records it is about to display: a
    table of their rows and the total line, when rich accepts the
    cells. *)
Lemma display_rows (w1 : World) (items : list JSON) (shown : list FeedbackRecord) :
  Forall2 represents items shown ->
  cells_ok (feedback_table shown) = true ->
  (items0 <- lift (py_iter (JArr items)) ;;
   data_for_table <- lift (table_items items0) ;;
   table <- lift (add_rows {| title := "Feedback";
                              columns := ["ID"; "Task Name"; "Feedback"; "Completion ID"];
                              rows := [] |} data_for_table) ;;
   console_print_table table ;;;
   n <- lift (py_len (JArr items)) ;;
   write_stdout (PrintText ("Total feedback: " +:+ pretty n))) w1 =
    (Return tt,
     with_stdout w1 [PrintTable (feedback_table shown);
                     PrintText ("Total feedback: " +:+ pretty (length shown))]).
Proof.
  intros Hshown Hok.
  unfold cells_ok, feedback_table in Hok. simpl in Hok.
  unfold bind, lift, ret, console_print_table, cells_ok, write_stdout, with_stdout. simpl.
  rewrite (table_items_represents items shown Hshown).
  rewrite add_rows_items. simpl. rewrite Hok. simpl.
  rewrite (Forall2_length _ _ _ Hshown).
  rewrite <- app_assoc. reflexivity.
Qed.

(** C5, amended.  When the fetch returns a response whose body decodes to
    an object with a [data] array of feedback records, the command was
    given a [task_id], and rich accepts the markup of the cells to
    display: for a non-empty [task_id] the table has exactly the rows of
    the records whose [task_id] equals it, in page order, and the total
    line gives the number of those rows; for the empty string the table
    has the rows of every record of the page and the total line gives
    their number. *)
Theorem list_feedback_shows_the_matching_rows
    (w w1 : World) (offset limit : Z) (t : string) (res : Response)
    (j : JSON) (items : list JSON) (rs : list FeedbackRecord) :
  fetch offset limit w = (Return (PyResponse res), w1) ->
  body res = JsonBody j ->
  py_getitem j "data" = Return (JArr items) ->
  Forall2 represents items rs ->
  let shown := if String.eqb t "" then rs else List.filter (has_task_id t) rs in
  cells_ok (feedback_table shown) = true ->
  list_feedback offset limit (Some t) w =
    (Return tt,
     with_stdout w1 [PrintTable (feedback_table shown);
                     PrintText ("Total feedback: " +:+ pretty (length shown))]).
Proof.
  intros Hfetch Hbody Hdata Hrs shown Hok.
  rewrite fetch_run in Hfetch.
  unfold list_feedback. unfold bind at 1. unfold try_except.
  unfold bind at 1. unfold Feedback.__init__, alloc. unfold bind at 1.
  unfold new_instance in Hfetch. rewrite Hfetch.
  unfold ret at 1.
  unfold bind at 1. unfold lift at 1. unfold py_json_method, Response_json. rewrite Hbody.
  unfold bind at 1. unfold lift at 1. rewrite Hdata.
  unfold truthy. subst shown.
  destruct (String.eqb t "") eqn:Ht; cbn [negb].
  - unfold bind at 1. unfold ret at 1.
    exact (display_rows w1 items rs Hrs Hok).
  - destruct (select_task_represents t items rs Hrs) as (kept & Hkept & Hshown).
    unfold bind at 1. unfold bind at 1. unfold lift at 1. cbn [py_iter].
    unfold bind at 1. unfold lift at 1. rewrite Hkept. unfold ret at 1.
    exact (display_rows w1 kept _ Hshown Hok).
Qed.

(** C10.  Run without [--comment] on [values] that parse, the
    [create_feedback] command sends a POST whose body binds [comment] to
    the empty string; [Feedback.create] called with [comment=None], the
    default of its parameter, sends a body that binds [comment] to
    [null]. *)
Theorem command_comment_defaults_to_empty_string
    (w : World) (task_id values completion_tags_selector : string) (v : JSON) :
  json_loads values = Some v ->
  let tags := str_split "," completion_tags_selector in
  (exists payload,
     sent (snd (create_feedback_command task_id values completion_tags_selector None w)) =
       sent w ++ [{| req_method := POST;
                     req_url := url default_config +:+ "/api/v1/feedback";
                     req_headers := headers (_http_client (new_instance None));
                     req_json := Some (JObj payload) |}]
     /\ dict_get "comment" payload = Some (JStr ""))
  /\ (forall self obj,
        heap w !! self = Some obj ->
        exists payload,
          sent (snd (Feedback.create self task_id v tags None w)) =
            sent w ++ [{| req_method := POST;
                          req_url := url (_log10_config obj) +:+ "/api/v1/feedback";
                          req_headers := headers (_http_client obj);
                          req_json := Some (JObj payload) |}]
          /\ dict_get "comment" payload = Some JNull).
Proof.
  intros Hv tags. split.
  - unfold create_feedback_command, create_feedback, loads. rewrite Hv.
    unfold bind at 1. unfold write_stdout at 1.
    unfold bind at 1. unfold ret at 1.
    unfold bind at 1. unfold Feedback.__init__, alloc.
    unfold bind at 1.
    erewrite create_run by apply fresh_instance_lookup.
    eexists. split.
    + simpl. destruct (attempt _); simpl.
      * reflexivity.
      * unfold bind, lift, write_stdout. simpl.
        destruct (Response_json r); reflexivity.
    + reflexivity.
  - intros self obj Hself.
    rewrite (create_run w self obj task_id v tags None Hself).
    eexists. split.
    + simpl. destruct (attempt _); reflexivity.
    + reflexivity.
Qed.

End ListCommandProperties.

(** ** Concrete runs *)

(** The [except] block of the client, case by case: a transport failure
    and an error response with a JSON object body leave as the exception
    that entered; an error response with a body that is no JSON leaves
    as a decode error. *)
Lemma handler_keeps_exception_without_response (e : Exn) :
  exn_response e = None ->
  handler_raises e = e /\ handler_logs e = [LogException e].
Proof.
  intros H. unfold handler_raises, handler_logs, has_error_key. rewrite H. auto.
Qed.

Lemma handler_keeps_exception_with_error_key (r : Response) (d : Dict) (v : JSON) :
  body r = JsonBody (JObj d) ->
  dict_get "error" d = Some v ->
  handler_raises (HTTPStatusError r) = HTTPStatusError r
  /\ handler_logs (HTTPStatusError r) = [LogException (HTTPStatusError r); LogValue v].
Proof.
  intros Hb Hd.
  unfold handler_raises, handler_logs, has_error_key, error_value, Response_json.
  simpl. rewrite Hb. simpl. rewrite Hd. auto.
Qed.

Lemma handler_keeps_exception_without_error_key (r : Response) (d : Dict) :
  body r = JsonBody (JObj d) ->
  dict_get "error" d = None ->
  handler_raises (HTTPStatusError r) = HTTPStatusError r
  /\ handler_logs (HTTPStatusError r) = [LogException (HTTPStatusError r)].
Proof.
  intros Hb Hd.
  unfold handler_raises, handler_logs, has_error_key, error_value, Response_json.
  simpl. rewrite Hb. simpl. rewrite Hd. auto.
Qed.

Lemma handler_replaces_exception_on_non_json_body (r : Response) (raw : string) :
  body r = NonJsonBody raw ->
  handler_raises (HTTPStatusError r) = JSONDecodeError
  /\ handler_logs (HTTPStatusError r) = [LogException (HTTPStatusError r)].
Proof.
  intros Hb.
  unfold handler_raises, handler_logs, has_error_key, error_value, Response_json.
  simpl. rewrite Hb. auto.
Qed.

(** C1, at a failing input.  The service answers 502 with an HTML body.
    [Feedback.list] and [Feedback.create] log the [HTTPStatusError] of
    that response, and what reaches the caller is the [JSONDecodeError]
    raised by [e.response.json()] inside the [except] block, not the
    [HTTPStatusError]. *)
Theorem non_json_error_body_replaces_the_exception :
  let w := one_instance gateway_down in
  let listed := Feedback.list (Ext := scripted gateway_down) 0%nat 0 25 None w in
  let posted := Feedback.create (Ext := scripted gateway_down) 0%nat "T1" (JObj []) ["tagA"] None w in
  is_success bad_gateway = false
  /\ fst listed = Raise JSONDecodeError
  /\ stderr (snd listed) = [LogException (HTTPStatusError bad_gateway)]
  /\ fst posted = Raise JSONDecodeError
  /\ stderr (snd posted) = [LogException (HTTPStatusError bad_gateway)]
  /\ JSONDecodeError <> HTTPStatusError bad_gateway.
Proof.
  cbv zeta. repeat split; try reflexivity. discriminate.
Qed.

(** C2 on a healthy service: the one GET of [list(0, 25, "a")]. *)
Lemma list_sends_one_get_without_task_id_witness :
  heap (one_instance healthy) !! 0%nat = Some (new_instance (Ext := scripted healthy) None)
  /\ sent (snd (Feedback.list (Ext := scripted healthy) 0%nat 0 25 (Some "a") (one_instance healthy))) =
       [{| req_method := GET;
           req_url := "https://log10.io/api/v1/feedback?organization_id=org-1&offset=0&limit=25";
           req_headers := [("x-log10-token", "t0k3n");
                           ("x-log10-organization-id", "org-1");
                           ("Content-Type", "application/json")];
           req_json := None |}].
Proof.
  split; [reflexivity|].
  exact (proj1 (list_sends_one_get_without_task_id (Ext := scripted healthy)
                  (one_instance healthy) 0%nat (new_instance (Ext := scripted healthy) None)
                  0 25 (Some "a") eq_refl)).
Defined.



(** C4 on a healthy service: the one POST of a [create] without comment. *)
Lemma create_sends_one_post_with_five_keys_witness :
  let w := one_instance healthy in
  heap w !! 0%nat = Some (new_instance (Ext := scripted healthy) None)
  /\ exists payload,
       sent (snd (Feedback.create (Ext := scripted healthy) 0%nat "T1" (JObj []) ["tagA"; "tagB"] None w)) =
         [{| req_method := POST;
             req_url := "https://log10.io/api/v1/feedback";
             req_headers := [("x-log10-token", "t0k3n");
                             ("x-log10-organization-id", "org-1");
                             ("Content-Type", "application/json")];
             req_json := Some (JObj payload) |}]
       /\ dict_keys payload =
            ["task_id"; "json_values"; "completion_tags_selector"; "comment"; "organization_id"]
       /\ dict_get "comment" payload = Some JNull.
Proof.
  cbv zeta. split; [reflexivity|].
  destruct (create_sends_one_post_with_five_keys (Ext := scripted healthy)
              (one_instance healthy) 0%nat (new_instance (Ext := scripted healthy) None)
              "T1" (JObj []) ["tagA"; "tagB"] None eq_refl)
    as (payload & Hsent & Hkeys & _ & _ & _ & Hcomment & _).
  exists payload. repeat split; assumption.
Defined.

(** C5 as stated fails: with [--task_id ""] on a page of two records,
    neither of which has the task id [""], the table shows both rows and
    the total is 2. *)
Lemma empty_task_id_shows_every_row :
  let out := stdout (snd (list_feedback (Ext := scripted healthy) 0 25 (Some "")
                            (empty_world healthy))) in
  let rs := [feedback_a; feedback_b] in
  let matching := List.filter (has_task_id "") rs in
  Forall2 represents [record_a; record_b] rs
  /\ matching = []
  /\ out = [PrintTable (feedback_table (Ext := scripted healthy) rs);
            PrintText "Total feedback: 2"]
  /\ out <> [PrintTable (feedback_table (Ext := scripted healthy) matching);
             PrintText ("Total feedback: " +:+ pretty (length matching))].
Proof.
  cbv zeta. split; [|split; [|split]].
  - repeat constructor; eexists; repeat split; reflexivity.
  - reflexivity.
  - reflexivity.
  - vm_compute. discriminate.
Qed.

(** C5, amended, on a healthy service: [--task_id a] shows the one row of
    task [a]. *)
Lemma list_feedback_shows_the_matching_rows_witness :
  let w := empty_world healthy in
  let w1 := snd (fetch (Ext := scripted healthy) 0 25 w) in
  fetch (Ext := scripted healthy) 0 25 w = (Return (PyResponse page_ab), w1)
  /\ Forall2 represents [record_a; record_b] [feedback_a; feedback_b]
  /\ cells_ok (Ext := scripted healthy)
       (feedback_table (Ext := scripted healthy) [feedback_a]) = true
  /\ list_feedback (Ext := scripted healthy) 0 25 (Some "a") w =
       (Return tt,
        with_stdout w1
          [PrintTable {| title := "Feedback";
                         columns := ["ID"; "Task Name"; "Feedback"; "Completion ID"];
                         rows := [["f1"; "summarize"; "{}"; "c1,c2"]] |};
           PrintText "Total feedback: 1"]).
Proof.
  cbv zeta.
  assert (Hrs : Forall2 represents [record_a; record_b] [feedback_a; feedback_b])
    by (repeat constructor; eexists; repeat split; reflexivity).
  split; [reflexivity|]. split; [exact Hrs|]. split; [reflexivity|].
  exact (list_feedback_shows_the_matching_rows (Ext := scripted healthy)
           (empty_world healthy) (snd (fetch (Ext := scripted healthy) 0 25 (empty_world healthy)))
           0 25 "a" page_ab (JObj [("data", JArr [record_a; record_b])])
           [record_a; record_b] [feedback_a; feedback_b]
           eq_refl eq_refl eq_refl Hrs eq_refl).
Defined.

(** C6 on a service over quota: [values] that do not parse, and [values]
    that do. *)
Lemma create_feedback_errors_propagate_witness :
  let w := empty_world over_quota in
  let started := with_stdout w [EchoText "Creating feedback"] in
  json_loads (Externals := scripted over_quota) "not json" = None
  /\ create_feedback (Ext := scripted over_quota) "T1" "not json" "tagA,tagB" "" w
       = (Raise JSONDecodeError, started)
  /\ sent started = []
  /\ json_loads (Externals := scripted over_quota) "{}" = Some (JObj [])
  /\ fst (create_feedback (Ext := scripted over_quota) "T1" "{}" "tagA,tagB" "" w)
       = Raise (HTTPStatusError quota_exceeded).
Proof.
  cbv zeta.
  destruct (create_feedback_errors_propagate (Ext := scripted over_quota)
              (empty_world over_quota) "T1" "not json" "tagA,tagB" "") as (Hparse & _ & _).
  destruct (Hparse eq_refl) as (Hraise & Hsent).
  destruct (create_feedback_errors_propagate (Ext := scripted over_quota)
              (empty_world over_quota) "T1" "{}" "tagA,tagB" "") as (_ & Hcall & _).
  pose proof (Hcall (JObj []) (HTTPStatusError quota_exceeded) _ eq_refl eq_refl) as Hquota.
  split; [reflexivity|]. split; [exact Hraise|]. split; [exact Hsent|].
  split; [reflexivity|]. rewrite Hquota. reflexivity.
Defined.

(** C7 on a service over quota. *)
Lemma list_feedback_reports_fetch_errors_witness :
  let w := empty_world over_quota in
  let w1 := snd (fetch (Ext := scripted over_quota) 0 25 w) in
  fetch (Ext := scripted over_quota) 0 25 w = (Raise (HTTPStatusError quota_exceeded), w1)
  /\ exists lines,
       list_feedback (Ext := scripted over_quota) 0 25 (Some "a") w =
         (Return tt,
          with_stdout w1 (EchoText "Error fetching feedback HTTPStatusError" :: lines))
       /\ (lines = [] \/ exists v, lines = [EchoValue v])
       /\ stdout w1 = stdout w.
Proof.
  cbv zeta. split; [reflexivity|].
  exact (list_feedback_reports_fetch_errors (Ext := scripted over_quota)
           (empty_world over_quota)
           (snd (fetch (Ext := scripted over_quota) 0 25 (empty_world over_quota)))
           0 25 (Some "a") (HTTPStatusError quota_exceeded) eq_refl).
Defined.

(** C8 on a healthy service. *)
Lemma list_twice_is_identical_witness :
  let w := one_instance healthy in
  let first := Feedback.list (Ext := scripted healthy) 0%nat 0 25 None w in
  let second := Feedback.list (Ext := scripted healthy) 0%nat 0 25 None (snd first) in
  heap w !! 0%nat = Some (new_instance (Ext := scripted healthy) None)
  /\ net (snd first) = net w
  /\ fst second = fst first
  /\ fst first = Return (PyResponse page_ab).
Proof.
  cbv zeta. split; [reflexivity|]. split; [reflexivity|].
  split; [|reflexivity].
  exact (proj1 (list_twice_is_identical (Ext := scripted healthy)
                  (one_instance healthy) 0%nat (new_instance (Ext := scripted healthy) None)
                  0 25 None eq_refl eq_refl)).
Defined.

(** C10 on a healthy service. *)
Lemma command_comment_defaults_to_empty_string_witness :
  json_loads (Externals := scripted healthy) "{}" = Some (JObj [])
  /\ exists payload,
       sent (snd (create_feedback_command (Ext := scripted healthy) "T1" "{}" "tagA,tagB" None
                    (empty_world healthy))) =
         [{| req_method := POST;
             req_url := "https://log10.io/api/v1/feedback";
             req_headers := [("x-log10-token", "t0k3n");
                             ("x-log10-organization-id", "org-1");
                             ("Content-Type", "application/json")];
             req_json := Some (JObj payload) |}]
       /\ dict_get "comment" payload = Some (JStr "").
Proof.
  split; [reflexivity|].
  exact (proj1 (command_comment_defaults_to_empty_string (Ext := scripted healthy)
                  (empty_world healthy) "T1" "{}" "tagA,tagB" (JObj []) eq_refl)).
Defined.

(** * Further properties *)

(** ** The error policy of the client, case by case *)

Section ErrorPolicy.
Context `{Ext : Externals}.

(** A call of either method on a live instance, in closed form. *)
Lemma call_run (w : World) (self : ref) (obj : FeedbackObj) (c : Call) :
  heap w !! self = Some obj ->
  run_call self c w =
    match attempt (fst (transport (net w) (call_request obj c))) with
    | inr r => (Return (PyResponse r), after_request w (call_request obj c) [])
    | inl e => (Raise (handler_raises e),
                after_request w (call_request obj c) (handler_logs e))
    end.
Proof.
  intros Hself. destruct c as [t v tags cm | offset limit t]; simpl.
  - apply create_run. exact Hself.
  - apply list_run. exact Hself.
Qed.

(** X1.  A call of [create] or [list] answered by a non-2xx response
    whose body is a JSON object with an ["error"] key: the exception is
    logged first, then the value of that key (whatever JSON it is), one
    request has been sent, and the caller receives the
    [HTTPStatusError] of that response. *)
Theorem error_value_is_logged_after_the_exception
    (w : World) (self : ref) (obj : FeedbackObj) (c : Call)
    (r : Response) (d : Dict) (v : JSON) :
  heap w !! self = Some obj ->
  fst (transport (net w) (call_request obj c)) = inr r ->
  is_success r = false ->
  body r = JsonBody (JObj d) ->
  dict_get "error" d = Some v ->
  run_call self c w =
    (Raise (HTTPStatusError r),
     after_request w (call_request obj c)
       [LogException (HTTPStatusError r); LogValue v]).
Proof.
  intros Hself Hans Hfail Hbody Hkey.
  rewrite (call_run w self obj c Hself). unfold attempt. rewrite Hans, Hfail.
  destruct (handler_keeps_exception_with_error_key r d v Hbody Hkey) as [-> ->].
  reflexivity.
Qed.

(** X2.  A call of [create] or [list] whose request fails in the
    transport with an exception that has no [response]: exactly that
    exception is logged, once, one request has been sent (no second
    attempt), and the caller receives the same exception. *)
Theorem transport_failure_is_logged_and_reraised
    (w : World) (self : ref) (obj : FeedbackObj) (c : Call) (e : Exn) :
  heap w !! self = Some obj ->
  fst (transport (net w) (call_request obj c)) = inl e ->
  exn_response e = None ->
  run_call self c w =
    (Raise e, after_request w (call_request obj c) [LogException e]).
Proof.
  intros Hself Hans Hnone.
  rewrite (call_run w self obj c Hself). unfold attempt. rewrite Hans.
  destruct (handler_keeps_exception_without_response e Hnone) as [-> ->].
  reflexivity.
Qed.

(** X3.  A call answered by a non-2xx response whose body is a JSON
    object without an ["error"] key: only the exception is logged and
    the caller receives the [HTTPStatusError] of that response. *)
Theorem error_object_without_error_key_logs_the_exception_only
    (w : World) (self : ref) (obj : FeedbackObj) (c : Call) (r : Response) (d : Dict) :
  heap w !! self = Some obj ->
  fst (transport (net w) (call_request obj c)) = inr r ->
  is_success r = false ->
  body r = JsonBody (JObj d) ->
  dict_get "error" d = None ->
  run_call self c w =
    (Raise (HTTPStatusError r),
     after_request w (call_request obj c) [LogException (HTTPStatusError r)]).
Proof.
  intros Hself Hans Hfail Hbody Hkey.
  rewrite (call_run w self obj c Hself). unfold attempt. rewrite Hans, Hfail.
  destruct (handler_keeps_exception_without_error_key r d Hbody Hkey) as [-> ->].
  reflexivity.
Qed.

(** X4.  A call answered by a non-2xx response whose body is JSON
    [null], a boolean or a number: the exception is logged, and the
    membership test ["error" in e.response.json()] raises [TypeError],
    which is what the caller receives. *)
Theorem scalar_error_body_raises_type_error
    (w : World) (self : ref) (obj : FeedbackObj) (c : Call) (r : Response) (j : JSON) :
  heap w !! self = Some obj ->
  fst (transport (net w) (call_request obj c)) = inr r ->
  is_success r = false ->
  body r = JsonBody j ->
  json_scalar j = true ->
  run_call self c w =
    (Raise TypeError,
     after_request w (call_request obj c) [LogException (HTTPStatusError r)]).
Proof.
  intros Hself Hans Hfail Hbody Hscalar.
  rewrite (call_run w self obj c Hself). unfold attempt. rewrite Hans, Hfail.
  unfold handler_raises, handler_logs, has_error_key, Response_json. simpl.
  rewrite Hbody. destruct j; try discriminate Hscalar; reflexivity.
Qed.

Lemma existsb_error_In (items : list JSON) :
  existsb (fun it => match it with JStr s => String.eqb s "error" | _ => false end) items = true
  <-> In (JStr "error") items.
Proof.
  rewrite existsb_exists. split.
  - intros (it & Hin & Heq). destruct it; try discriminate Heq.
    apply String.eqb_eq in Heq. subst. exact Hin.
  - intros Hin. exists (JStr "error"). split; [exact Hin | reflexivity].
Qed.

(** X5.  A call answered by a non-2xx response whose body is a JSON
    array: when the array has the string ["error"] among its elements
    the guard holds, the subscript [["error"]] on the list raises and
    the caller receives [TypeError]; otherwise the caller receives the
    [HTTPStatusError].  The exception alone is logged in both cases. *)
Theorem array_error_body_raises_type_error_when_it_lists_error
    (w : World) (self : ref) (obj : FeedbackObj) (c : Call)
    (r : Response) (items : list JSON) :
  heap w !! self = Some obj ->
  fst (transport (net w) (call_request obj c)) = inr r ->
  is_success r = false ->
  body r = JsonBody (JArr items) ->
  (In (JStr "error") items ->
     fst (run_call self c w) = Raise TypeError)
  /\ (~ In (JStr "error") items ->
     fst (run_call self c w) = Raise (HTTPStatusError r))
  /\ snd (run_call self c w) =
       after_request w (call_request obj c) [LogException (HTTPStatusError r)].
Proof.
  intros Hself Hans Hfail Hbody.
  rewrite (call_run w self obj c Hself). unfold attempt. rewrite Hans, Hfail.
  unfold handler_raises, handler_logs, has_error_key, error_value, Response_json. simpl.
  rewrite Hbody. simpl.
  destruct (existsb _ items) eqn:Hex.
  - apply existsb_error_In in Hex.
    split; [intros _; reflexivity | split; [intros Hn; contradiction | reflexivity]].
  - assert (Hnot : ~ In (JStr "error") items).
    { intros Hin. apply existsb_error_In in Hin. congruence. }
    split; [intros Hin; contradiction | split; [intros _; reflexivity | reflexivity]].
Qed.

(** X6.  A call of [create] or [list] never writes to standard output;
    it leaves the log as it was exactly when it returns; and when it
    raises, the log has grown by the exception that entered the
    [except] block (the transport's exception, or the
    [HTTPStatusError] of the non-2xx response), followed by nothing or
    by the one record of the ["error"] value of that exception's
    response. *)
Theorem log_grows_exactly_when_the_call_raises
    (w : World) (self : ref) (obj : FeedbackObj) (c : Call) :
  heap w !! self = Some obj ->
  let answer := fst (transport (net w) (call_request obj c)) in
  let w' := snd (run_call self c w) in
  stdout w' = stdout w
  /\ ((exists v, fst (run_call self c w) = Return v) <-> stderr w' = stderr w)
  /\ (forall e, fst (run_call self c w) = Raise e ->
        exists e0,
          (answer = inl e0
           \/ exists r, answer = inr r /\ is_success r = false /\ e0 = HTTPStatusError r)
          /\ (stderr w' = stderr w ++ [LogException e0]
              \/ exists v, error_value e0 = Return v
                           /\ stderr w' = stderr w ++ [LogException e0; LogValue v])).
Proof.
  intros Hself answer w'. subst answer w'. rewrite (call_run w self obj c Hself).
  unfold attempt.
  destruct (fst (transport (net w) (call_request obj c))) as [e0|r] eqn:Hans.
  - cbn [fst snd after_request stdout stderr].
    split; [reflexivity|]. split.
    + split.
      * intros [v Hv]. discriminate Hv.
      * intros Heq. exfalso.
        rewrite <- (app_nil_r (stderr w)) in Heq at 2.
        apply app_inv_head in Heq. discriminate Heq.
    + intros e _. exists e0. split; [left; reflexivity|].
      unfold handler_logs.
      destruct (has_error_key e0) as [[|]|]; [|left; reflexivity|left; reflexivity].
      destruct (error_value e0) as [v|]; [right; eauto | left; reflexivity].
  - destruct (is_success r) eqn:Hok; cbn [fst snd after_request stdout stderr].
    + split; [reflexivity|]. split.
      * split; [intros _; apply app_nil_r | eauto].
      * intros e He. discriminate He.
    + split; [reflexivity|]. split.
      * split.
        -- intros [v Hv]. discriminate Hv.
        -- intros Heq. exfalso.
           rewrite <- (app_nil_r (stderr w)) in Heq at 2.
           apply app_inv_head in Heq. discriminate Heq.
      * intros e _. exists (HTTPStatusError r). split; [right; eauto|].
        unfold handler_logs.
        destruct (has_error_key (HTTPStatusError r)) as [[|]|];
          [|left; reflexivity|left; reflexivity].
        destruct (error_value (HTTPStatusError r)) as [v|];
          [right; eauto | left; reflexivity].
Qed.

End ErrorPolicy.

(** ** The payload of [_post_request] *)

Lemma dict_get_setitem_eq (k : string) (v : JSON) (d : Dict) :
  dict_get k (dict_setitem k v d) = Some v.
Proof.
  induction d as [|[k' v'] d IH]; simpl.
  - rewrite String.eqb_refl. reflexivity.
  - destruct (String.eqb k k') eqn:Hk; simpl; rewrite Hk; [reflexivity | exact IH].
Qed.

Lemma dict_get_setitem_ne (k k0 : string) (v : JSON) (d : Dict) :
  k0 <> k -> dict_get k0 (dict_setitem k v d) = dict_get k0 d.
Proof.
  intros Hne. induction d as [|[k' v'] d IH]; simpl.
  - destruct (String.eqb_spec k0 k); [contradiction | reflexivity].
  - destruct (String.eqb_spec k k') as [<-|Hk]; simpl.
    + destruct (String.eqb_spec k0 k); [contradiction | reflexivity].
    + rewrite IH. reflexivity.
Qed.

Lemma dict_keys_setitem_bound (k : string) (v : JSON) (d : Dict) :
  is_Some (dict_get k d) -> dict_keys (dict_setitem k v d) = dict_keys d.
Proof.
  induction d as [|[k' v'] d IH]; simpl; intros [v0 Hv0].
  - discriminate Hv0.
  - destruct (String.eqb k k'); simpl; [reflexivity|].
    f_equal. apply IH. eauto.
Qed.

Lemma dict_keys_setitem_fresh (k : string) (v : JSON) (d : Dict) :
  dict_get k d = None -> dict_keys (dict_setitem k v d) = dict_keys d ++ [k].
Proof.
  induction d as [|[k' v'] d IH]; simpl; intros Hnone.
  - reflexivity.
  - destruct (String.eqb k k'); [discriminate Hnone|]. simpl.
    f_equal. apply IH. exact Hnone.
Qed.

Section PostRequest.
Context `{Ext : Externals}.

(** [_post_request] on a live instance, in closed form. *)
Lemma post_request_run (w : World) (self : ref) (obj : FeedbackObj)
    (path : string) (json_payload : Dict) :
  heap w !! self = Some obj ->
  Feedback._post_request self path json_payload w =
    let req := {| req_method := POST;
                  req_url := url (_log10_config obj) +:+ path;
                  req_headers := headers (_http_client obj);
                  req_json := Some (JObj (dict_setitem "organization_id"
                                            (JStr (org_id (_log10_config obj)))
                                            json_payload)) |} in
    match attempt (fst (transport (net w) req)) with
    | inr r => (Return r, after_request w req [])
    | inl e => (Raise (handler_raises e), after_request w req (handler_logs e))
    end.
Proof.
  intros Hself. unfold Feedback._post_request.
  unfold bind at 1. unfold read_self. rewrite Hself.
  unfold Client_post.
  apply (guarded_request_run _ (fun r => r) w).
Qed.

(** X7.  [_post_request] with any payload sends one POST to
    [<url><path>] whose body binds [organization_id] to the [org_id] of
    the configuration, also when the payload already bound that key to
    something else; every other key keeps its value; the keys keep
    their order, [organization_id] being appended when it was absent. *)
Theorem post_request_sets_the_organization_id
    (w : World) (self : ref) (obj : FeedbackObj) (path : string) (json_payload : Dict) :
  heap w !! self = Some obj ->
  exists sent_payload,
    sent (snd (Feedback._post_request self path json_payload w)) =
      sent w ++ [{| req_method := POST;
                    req_url := url (_log10_config obj) +:+ path;
                    req_headers := headers (_http_client obj);
                    req_json := Some (JObj sent_payload) |}]
    /\ dict_get "organization_id" sent_payload = Some (JStr (org_id (_log10_config obj)))
    /\ (forall k, k <> "organization_id" ->
          dict_get k sent_payload = dict_get k json_payload)
    /\ (is_Some (dict_get "organization_id" json_payload) ->
          dict_keys sent_payload = dict_keys json_payload)
    /\ (dict_get "organization_id" json_payload = None ->
          dict_keys sent_payload = dict_keys json_payload ++ ["organization_id"]).
Proof.
  intros Hself. rewrite (post_request_run w self obj path json_payload Hself).
  eexists. split.
  - simpl. destruct (attempt _); reflexivity.
  - split; [apply dict_get_setitem_eq|].
    split; [intros k Hk; apply dict_get_setitem_ne; exact Hk|].
    split; [apply dict_keys_setitem_bound | apply dict_keys_setitem_fresh].
Qed.

(** X9.  Constructing a [Feedback] sends no request, logs nothing and
    prints nothing; it yields a reference different from every live
    instance and leaves the attributes of a live instance as they
    were. *)
Theorem instances_are_independent
    (w : World) (self : ref) (obj : FeedbackObj) (log10_config : option Log10Config) :
  heap w !! self = Some obj ->
  exists other w',
    Feedback.__init__ log10_config w = (Return other, w')
    /\ other <> self
    /\ heap w' !! self = Some obj
    /\ heap w' !! other = Some (new_instance log10_config)
    /\ sent w' = sent w /\ stderr w' = stderr w /\ stdout w' = stdout w /\ net w' = net w.
Proof.
  intros Hself. eexists _, _. split; [reflexivity|]. simpl.
  pose proof (lookup_lt_Some _ _ _ Hself) as Hlt.
  split; [lia|]. split.
  - rewrite lookup_app_l by exact Hlt. exact Hself.
  - split; [apply fresh_instance_lookup|]. repeat split.
Qed.

(** X10.  For an instance built from any configuration, the request of
    [create] carries the configuration's [org_id] twice, and the two
    agree: in the [x-log10-organization-id] header fixed by [__init__]
    and in the [organization_id] of the body set by [_post_request]. *)
Theorem organization_id_agrees_in_header_and_body
    (w : World) (log10_config : option Log10Config)
    (task_id : string) (values : JSON) (tags : list string) (comment : option string) :
  let config := match log10_config with Some c => c | None => default_config end in
  exists self w0 req payload,
    Feedback.__init__ log10_config w = (Return self, w0)
    /\ sent (snd (Feedback.create self task_id values tags comment w0)) = sent w ++ [req]
    /\ req_headers req = [("x-log10-token", token config);
                          ("x-log10-organization-id", org_id config);
                          ("Content-Type", "application/json")]
    /\ req_json req = Some (JObj payload)
    /\ dict_get "organization_id" payload = Some (JStr (org_id config)).
Proof.
  intros config. eexists _, _, _, _. split; [reflexivity|].
  erewrite create_run by (simpl; apply fresh_instance_lookup).
  split.
  - simpl. destruct (attempt _); reflexivity.
  - repeat split.
Qed.

End PostRequest.

(** ** The list command *)

Section ListCommandEffects.
Context `{Ext : Externals}.

Lemma with_stdout_nil (w : World) : with_stdout w [] = w.
Proof. destruct w. unfold with_stdout. simpl. rewrite app_nil_r. reflexivity. Qed.

Lemma with_stdout_app (w : World) (a b : list OutItem) :
  with_stdout (with_stdout w a) b = with_stdout w (a ++ b).
Proof. unfold with_stdout. simpl. rewrite <- app_assoc. reflexivity. Qed.

Lemma stdout_only_ret {A} (a : A) : stdout_only (ret a).
Proof. intros w. exists []. symmetry. apply with_stdout_nil. Qed.

Lemma stdout_only_raise {A} (e : Exn) : stdout_only (raise (A := A) e).
Proof. intros w. exists []. symmetry. apply with_stdout_nil. Qed.

Lemma stdout_only_lift {A} (o : Outcome A) : stdout_only (lift o).
Proof. intros w. exists []. symmetry. apply with_stdout_nil. Qed.

Lemma stdout_only_write (x : OutItem) : stdout_only (write_stdout x).
Proof. intros w. exists [x]. reflexivity. Qed.

Lemma stdout_only_print_table (t : Table) : stdout_only (console_print_table t).
Proof.
  unfold console_print_table.
  destruct (cells_ok t); [apply stdout_only_write | apply stdout_only_raise].
Qed.

Lemma stdout_only_bind {A B} (c : M A) (k : A -> M B) :
  stdout_only c -> (forall a, stdout_only (k a)) -> stdout_only (bind c k).
Proof.
  intros Hc Hk w. unfold bind. destruct (Hc w) as [out Hout].
  destruct (c w) as [[a|e] w1]; simpl in Hout; subst w1.
  - destruct (Hk a (with_stdout w out)) as [out' Hout'].
    exists (out ++ out'). rewrite Hout'. apply with_stdout_app.
  - exists out. reflexivity.
Qed.

Ltac stdout_only_step :=
  first [ apply stdout_only_ret | apply stdout_only_raise | apply stdout_only_lift
        | apply stdout_only_write | apply stdout_only_print_table
        | apply stdout_only_bind; [| intros ?] ].

Ltac stdout_only_all :=
  repeat first
    [ stdout_only_step
    | match goal with
      | |- stdout_only (if ?b then _ else _) => destruct b
      | |- stdout_only (match ?x with _ => _ end) => destruct x
      end ].

(** The fetch of the list command, in closed form. *)
Lemma fetch_closed (w : World) (offset limit : Z) :
  exists w0,
    net w0 = net w /\ sent w0 = sent w /\ stderr w0 = stderr w /\ stdout w0 = stdout w
    /\ fetch offset limit w =
         let req := list_request (new_instance None) offset limit in
         match attempt (fst (transport (net w) req)) with
         | inr r => (Return (PyResponse r), after_request w0 req [])
         | inl e => (Raise (handler_raises e), after_request w0 req (handler_logs e))
         end.
Proof.
  exists {| net := net w; sent := sent w; heap := heap w ++ [new_instance None];
            stderr := stderr w; stdout := stdout w |}.
  repeat (split; [reflexivity|]).
  rewrite fetch_run. erewrite list_run by apply fresh_instance_lookup. reflexivity.
Qed.

(** A guarded computation followed by a continuation, when the handler
    and the continuation only write to standard output. *)
Lemma try_then_stdout_only {A B} (body : M A) (handler : Exn -> M A) (k : A -> M B)
    (w : World) :
  (forall e, stdout_only (handler e)) ->
  (forall a, stdout_only (k a)) ->
  exists out, snd (bind (try_except body handler) k w) = with_stdout (snd (body w)) out.
Proof.
  intros Hh Hk. unfold bind, try_except.
  destruct (body w) as [[a|e] w1]; simpl.
  - apply Hk.
  - destruct (Hh e w1) as [out Hout].
    destruct (handler e w1) as [[a|e'] w2]; simpl in Hout; subst w2.
    + destruct (Hk a (with_stdout w1 out)) as [out' Hout'].
      exists (out ++ out'). rewrite Hout'. apply with_stdout_app.
    + exists out. reflexivity.
Qed.

(** The list command runs its fetch and then only writes to standard output. *)
Lemma list_feedback_after_fetch (w : World) (offset limit : Z) (task_id : option string) :
  exists out,
    snd (list_feedback offset limit task_id w) =
      with_stdout (snd (fetch offset limit w)) out.
Proof.
  assert (Hbody : snd ((self <- Feedback.__init__ None ;;
                        res <- Feedback.list self offset limit None ;; ret (Some res)) w) =
                  snd (fetch offset limit w)).
  { unfold fetch, bind. destruct (Feedback.__init__ None w) as [[self|e] w0]; [|reflexivity].
    destruct (Feedback.list self offset limit None w0) as [[res|e] w1]; reflexivity. }
  rewrite <- Hbody. unfold list_feedback.
  apply try_then_stdout_only.
  - intros e. stdout_only_all.
  - intros fetched. stdout_only_all.
Qed.

(** X15.  Every run of [list_feedback] sends exactly one request, the GET
    of [Feedback().list(offset, limit)] on the default configuration,
    whatever [task_id] is and however the run ends; the log and the
    network are left as its fetch left them: after the fetch the command
    only writes to standard output. *)
Theorem list_feedback_sends_one_get
    (w : World) (offset limit : Z) (task_id : option string) :
  let w' := snd (list_feedback offset limit task_id w) in
  sent w' = sent w ++ [list_request (new_instance None) offset limit]
  /\ stderr w' = stderr (snd (fetch offset limit w))
  /\ net w' = net (snd (fetch offset limit w)).
Proof.
  intros w'. subst w'.
  destruct (list_feedback_after_fetch w offset limit task_id) as [out ->].
  destruct (fetch_closed w offset limit) as (w0 & _ & Hsent & _ & _ & ->).
  simpl. destruct (attempt _); simpl; rewrite Hsent; auto.
Qed.

End ListCommandEffects.

Section ListCommandCases.
Context `{Ext : Externals}.

(** The list command once its fetch has returned a response. *)
Lemma list_feedback_fetched (w w1 : World) (offset limit : Z) (task_id : option string)
    (res : PyValue) :
  fetch offset limit w = (Return res, w1) ->
  list_feedback offset limit task_id w =
    (j <- lift (py_json_method res) ;;
     feedback_data <- lift (py_getitem j "data") ;;
     feedback_data <-
       (if truthy task_id
        then items <- lift (py_iter feedback_data) ;;
             kept <- lift (select_task (match task_id with Some s => s | None => "" end) items) ;;
             ret (JArr kept)
        else ret feedback_data) ;;
     items <- lift (py_iter feedback_data) ;;
     data_for_table <- lift (table_items items) ;;
     table <- lift (add_rows {| title := "Feedback";
                                columns := ["ID"; "Task Name"; "Feedback"; "Completion ID"];
                                rows := [] |} data_for_table) ;;
     console_print_table table ;;;
     n <- lift (py_len feedback_data) ;;
     write_stdout (PrintText ("Total feedback: " +:+ pretty n))) w1.
Proof.
  intros Hfetch. rewrite fetch_run in Hfetch.
  unfold list_feedback. unfold bind at 1. unfold try_except.
  unfold bind at 1. unfold Feedback.__init__, alloc. unfold bind at 1.
  unfold new_instance in Hfetch. rewrite Hfetch. reflexivity.
Qed.

(** X11.  [list_feedback] without a [task_id] (or with the empty string):
    when the fetch returns a page of feedback records and rich accepts
    the markup of their cells, the table has one row per record, in page
    order, and the total line gives the size of the page. *)
Theorem list_feedback_without_filter_shows_the_page
    (w w1 : World) (offset limit : Z) (task_id : option string) (res : Response)
    (j : JSON) (items : list JSON) (rs : list FeedbackRecord) :
  truthy task_id = false ->
  fetch offset limit w = (Return (PyResponse res), w1) ->
  body res = JsonBody j ->
  py_getitem j "data" = Return (JArr items) ->
  Forall2 represents items rs ->
  cells_ok (feedback_table rs) = true ->
  list_feedback offset limit task_id w =
    (Return tt,
     with_stdout w1 [PrintTable (feedback_table rs);
                     PrintText ("Total feedback: " +:+ pretty (length rs))]).
Proof.
  intros Hfalse Hfetch Hbody Hdata Hrs Hok.
  rewrite (list_feedback_fetched w w1 offset limit task_id _ Hfetch).
  unfold bind at 1. unfold lift at 1. unfold py_json_method, Response_json. rewrite Hbody.
  unfold bind at 1. unfold lift at 1. rewrite Hdata, Hfalse.
  unfold bind at 1. unfold ret at 1.
  exact (display_rows w1 items rs Hrs Hok).
Qed.

(** X23.  [list_feedback] on a page of feedback records when a cell of a
    row to display is markup that rich rejects (an unmatched closing
    tag in a task name, say): [console.print(table)] raises
    [MarkupError] out of the command, and neither the table nor the
    total line is printed.  The rows to display are those of the whole
    page without a [task_id] (or with the empty one) and those of the
    matching records otherwise. *)
Theorem list_feedback_raises_on_rejected_markup
    (w w1 : World) (offset limit : Z) (task_id : option string) (res : Response)
    (j : JSON) (items : list JSON) (rs : list FeedbackRecord) :
  fetch offset limit w = (Return (PyResponse res), w1) ->
  body res = JsonBody j ->
  py_getitem j "data" = Return (JArr items) ->
  Forall2 represents items rs ->
  let shown := match task_id with
               | Some t => if String.eqb t "" then rs else List.filter (has_task_id t) rs
               | None => rs
               end in
  cells_ok (feedback_table shown) = false ->
  list_feedback offset limit task_id w = (Raise MarkupError, w1).
Proof.
  intros Hfetch Hbody Hdata Hrs shown Hbad.
  rewrite (list_feedback_fetched w w1 offset limit task_id _ Hfetch).
  unfold bind at 1. unfold lift at 1. unfold py_json_method, Response_json. rewrite Hbody.
  unfold bind at 1. unfold lift at 1. rewrite Hdata.
  assert (Htail : forall items' shown',
            Forall2 represents items' shown' ->
            cells_ok (feedback_table shown') = false ->
            (items0 <- lift (py_iter (JArr items')) ;;
             data_for_table <- lift (table_items items0) ;;
             table <- lift (add_rows {| title := "Feedback";
                                        columns := ["ID"; "Task Name"; "Feedback";
                                                    "Completion ID"];
                                        rows := [] |} data_for_table) ;;
             console_print_table table ;;;
             n <- lift (py_len (JArr items')) ;;
             write_stdout (PrintText ("Total feedback: " +:+ pretty n))) w1 =
              (Raise MarkupError, w1)).
  { intros items' shown' Hshown' Hbad'.
    unfold cells_ok, feedback_table in Hbad'. simpl in Hbad'.
    unfold bind, lift, ret, console_print_table, cells_ok, raise. simpl.
    rewrite (table_items_represents items' shown' Hshown').
    rewrite add_rows_items. simpl. rewrite Hbad'. reflexivity. }
  subst shown. unfold truthy.
  destruct task_id as [t|].
  - destruct (String.eqb t "") eqn:Ht; cbn [negb].
    + unfold bind at 1. unfold ret at 1. exact (Htail items rs Hrs Hbad).
    + destruct (select_task_represents t items rs Hrs) as (kept & Hkept & Hshown).
      unfold bind at 1. unfold bind at 1. unfold lift at 1. cbn [py_iter].
      unfold bind at 1. unfold lift at 1. rewrite Hkept. unfold ret at 1.
      exact (Htail kept _ Hshown Hbad).
  - unfold bind at 1. unfold ret at 1. exact (Htail items rs Hrs Hbad).
Qed.

(** X12.  [list_feedback] when the fetch returns a response of successful
    status whose body is no JSON: [res.json()] is outside the [try], so
    the command raises [JSONDecodeError] and prints nothing, neither an
    error line nor a table. *)
Theorem list_feedback_raises_on_undecodable_page
    (w w1 : World) (offset limit : Z) (task_id : option string) (res : Response)
    (raw : string) :
  fetch offset limit w = (Return (PyResponse res), w1) ->
  body res = NonJsonBody raw ->
  list_feedback offset limit task_id w = (Raise JSONDecodeError, w1).
Proof.
  intros Hfetch Hbody.
  rewrite (list_feedback_fetched w w1 offset limit task_id _ Hfetch).
  unfold bind, lift, py_json_method, Response_json. rewrite Hbody. reflexivity.
Qed.

(** X13.  [list_feedback] when the page is a JSON object without a
    [data] key: the command raises [KeyError('data')] and prints
    nothing. *)
Theorem list_feedback_raises_on_page_without_data
    (w w1 : World) (offset limit : Z) (task_id : option string) (res : Response)
    (d : Dict) :
  fetch offset limit w = (Return (PyResponse res), w1) ->
  body res = JsonBody (JObj d) ->
  dict_get "data" d = None ->
  list_feedback offset limit task_id w = (Raise (KeyError "data"), w1).
Proof.
  intros Hfetch Hbody Hdata.
  rewrite (list_feedback_fetched w w1 offset limit task_id _ Hfetch).
  unfold bind, lift, py_json_method, Response_json, py_getitem.
  rewrite Hbody, Hdata. reflexivity.
Qed.

Lemma select_task_missing_key (t : string) (before after : list JSON) (d : Dict) :
  Forall (binds_key "task_id") before ->
  dict_get "task_id" d = None ->
  select_task t (before ++ JObj d :: after) = Raise (KeyError "task_id").
Proof.
  intros Hbefore Hd. induction Hbefore as [|j before (dj & vj & -> & Hj) _ IH]; simpl.
  - unfold obind, py_getitem. rewrite Hd. reflexivity.
  - unfold obind, py_getitem. rewrite Hj. unfold obind in IH. rewrite IH. reflexivity.
Qed.

(** X14.  [list_feedback] with a non-empty [task_id] on a page in which a
    record has no [task_id] key (the records before it having one): the
    comprehension raises [KeyError('task_id')], the command raises it,
    and no table is printed, not even for the records that match. *)
Theorem list_feedback_filter_raises_on_record_without_task_id
    (w w1 : World) (offset limit : Z) (t : string) (res : Response)
    (j : JSON) (before after : list JSON) (d : Dict) :
  t <> "" ->
  fetch offset limit w = (Return (PyResponse res), w1) ->
  body res = JsonBody j ->
  py_getitem j "data" = Return (JArr (before ++ JObj d :: after)) ->
  Forall (binds_key "task_id") before ->
  dict_get "task_id" d = None ->
  list_feedback offset limit (Some t) w = (Raise (KeyError "task_id"), w1).
Proof.
  intros Ht Hfetch Hbody Hdata Hbefore Hd.
  rewrite (list_feedback_fetched w w1 offset limit (Some t) _ Hfetch).
  assert (Htruthy : truthy (Some t) = true).
  { unfold truthy. destruct (String.eqb_spec t ""); [contradiction | reflexivity]. }
  unfold bind, lift, ret, py_json_method, Response_json.
  rewrite Hbody, Hdata, Htruthy. simpl.
  rewrite (select_task_missing_key t before after d Hbefore Hd). reflexivity.
Qed.

(** The list command once its fetch has raised. *)
Lemma list_feedback_failed (w w1 : World) (offset limit : Z) (task_id : option string)
    (e : Exn) :
  fetch offset limit w = (Raise e, w1) ->
  list_feedback offset limit task_id w =
    (write_stdout (EchoText ("Error fetching feedback " +:+ exn_str e)) ;;;
     b <- lift (has_error_key e) ;;
     (if b : bool
      then v <- lift (error_value e) ;; write_stdout (EchoValue v)
      else ret tt) ;;;
     ret tt) w1.
Proof.
  intros Hfetch. rewrite fetch_run in Hfetch.
  unfold list_feedback. unfold bind at 1. unfold try_except.
  unfold bind at 1. unfold Feedback.__init__, alloc. unfold bind at 1.
  unfold new_instance in Hfetch. rewrite Hfetch.
  unfold bind, write_stdout, lift, ret.
  destruct (has_error_key e) as [[|]|e1]; [|reflexivity|reflexivity].
  destruct (error_value e); reflexivity.
Qed.

(** X16.  [list_feedback] when the service answers the GET with a non-2xx
    response whose body is a JSON object with an ["error"] key: the
    command returns normally, standard output gets the line
    ["Error fetching feedback <e>"] and then the value of the key, and
    the log gets the exception and the same value. *)
Theorem list_feedback_prints_the_error_value
    (w : World) (offset limit : Z) (task_id : option string)
    (r : Response) (d : Dict) (v : JSON) :
  fst (transport (net w) (list_request (new_instance None) offset limit)) = inr r ->
  is_success r = false ->
  body r = JsonBody (JObj d) ->
  dict_get "error" d = Some v ->
  exists w',
    list_feedback offset limit task_id w = (Return tt, w')
    /\ stdout w' = stdout w ++
         [EchoText ("Error fetching feedback " +:+ exn_str (HTTPStatusError r));
          EchoValue v]
    /\ stderr w' = stderr w ++ [LogException (HTTPStatusError r); LogValue v]
    /\ sent w' = sent w ++ [list_request (new_instance None) offset limit].
Proof.
  intros Hans Hfail Hbody Hkey.
  destruct (fetch_closed w offset limit) as (w0 & _ & Hsent & Herr & Hout & Hfetch).
  simpl in Hfetch. unfold attempt in Hfetch. rewrite Hans, Hfail in Hfetch.
  destruct (handler_keeps_exception_with_error_key r d v Hbody Hkey) as [Hr Hl].
  rewrite Hr, Hl in Hfetch.
  rewrite (list_feedback_failed w _ offset limit task_id _ Hfetch).
  unfold bind, write_stdout, lift, ret, has_error_key, error_value, Response_json. simpl.
  rewrite Hbody. simpl. rewrite Hkey. simpl.
  eexists. split; [reflexivity|]. simpl.
  rewrite Hsent, Herr, Hout, <- app_assoc. auto.
Qed.

(** X17.  [list_feedback] when the service answers the GET with a non-2xx
    response whose body is no JSON: the command returns normally and
    the line it prints carries the text of the [JSONDecodeError], not
    of the HTTP error; the HTTP error is in the log. *)
Theorem list_feedback_reports_the_decode_error
    (w : World) (offset limit : Z) (task_id : option string) (r : Response) (raw : string) :
  fst (transport (net w) (list_request (new_instance None) offset limit)) = inr r ->
  is_success r = false ->
  body r = NonJsonBody raw ->
  exists w',
    list_feedback offset limit task_id w = (Return tt, w')
    /\ stdout w' = stdout w ++
         [EchoText ("Error fetching feedback " +:+ exn_str JSONDecodeError)]
    /\ stderr w' = stderr w ++ [LogException (HTTPStatusError r)]
    /\ sent w' = sent w ++ [list_request (new_instance None) offset limit].
Proof.
  intros Hans Hfail Hbody.
  destruct (fetch_closed w offset limit) as (w0 & _ & Hsent & Herr & Hout & Hfetch).
  simpl in Hfetch. unfold attempt in Hfetch. rewrite Hans, Hfail in Hfetch.
  destruct (handler_replaces_exception_on_non_json_body r raw Hbody) as [Hr Hl].
  rewrite Hr, Hl in Hfetch.
  rewrite (list_feedback_failed w _ offset limit task_id _ Hfetch).
  unfold bind, write_stdout, lift, ret. simpl.
  eexists. split; [reflexivity|]. simpl.
  rewrite Hsent, Herr, Hout. auto.
Qed.

(** X18.  [list_feedback] when the GET fails in the transport with an
    exception that has no [response]: the command returns normally
    after printing ["Error fetching feedback <e>"] for that exception,
    which is also the one record in the log. *)
Theorem list_feedback_reports_a_transport_failure
    (w : World) (offset limit : Z) (task_id : option string) (e : Exn) :
  fst (transport (net w) (list_request (new_instance None) offset limit)) = inl e ->
  exn_response e = None ->
  exists w',
    list_feedback offset limit task_id w = (Return tt, w')
    /\ stdout w' = stdout w ++ [EchoText ("Error fetching feedback " +:+ exn_str e)]
    /\ stderr w' = stderr w ++ [LogException e]
    /\ sent w' = sent w ++ [list_request (new_instance None) offset limit].
Proof.
  intros Hans Hnone.
  destruct (fetch_closed w offset limit) as (w0 & _ & Hsent & Herr & Hout & Hfetch).
  simpl in Hfetch. unfold attempt in Hfetch. rewrite Hans in Hfetch.
  destruct (handler_keeps_exception_without_response e Hnone) as [Hr Hl].
  rewrite Hr, Hl in Hfetch.
  rewrite (list_feedback_failed w _ offset limit task_id _ Hfetch).
  unfold bind, write_stdout, lift, ret, has_error_key. rewrite Hnone. simpl.
  eexists. split; [reflexivity|]. simpl.
  rewrite Hsent, Herr, Hout. auto.
Qed.

End ListCommandCases.

(** ** The create command *)

Section CreateCommandCases.
Context `{Ext : Externals}.

(** The create command on [values] that parse, up to the answer of the
    transport. *)
Lemma create_feedback_parsed (w : World)
    (task_id values completion_tags_selector comment : string) (v : JSON) :
  json_loads values = Some v ->
  exists w0,
    net w0 = net w /\ sent w0 = sent w /\ stderr w0 = stderr w
    /\ stdout w0 = stdout w ++ [EchoText "Creating feedback"]
    /\ create_feedback task_id values completion_tags_selector comment w =
         let req := create_request (new_instance None) task_id v
                      (str_split "," completion_tags_selector) (Some comment) in
         match attempt (fst (transport (net w) req)) with
         | inr r =>
             match Response_json r with
             | Return j => (Return tt, with_stdout (after_request w0 req []) [EchoValue j])
             | Raise e => (Raise e, after_request w0 req [])
             end
         | inl e => (Raise (handler_raises e), after_request w0 req (handler_logs e))
         end.
Proof.
  intros Hv.
  exists {| net := net w; sent := sent w; heap := heap w ++ [new_instance None];
            stderr := stderr w; stdout := stdout w ++ [EchoText "Creating feedback"] |}.
  repeat (split; [reflexivity|]).
  unfold create_feedback, loads. rewrite Hv.
  unfold bind at 1. unfold write_stdout at 1.
  unfold bind at 1. unfold ret at 1.
  unfold bind at 1. unfold Feedback.__init__, alloc.
  unfold bind at 1.
  erewrite create_run by apply fresh_instance_lookup.
  simpl. destruct (attempt _); simpl; [reflexivity|].
  unfold bind, lift, write_stdout. simpl.
  destruct (Response_json r); reflexivity.
Qed.

(** X19.  [create_feedback] on [values] that parse, answered by a
    response of successful status with a JSON body: the command sends
    one POST on the default configuration whose body is
    [{task_id, json_values: <parsed values>, completion_tags_selector:
    <selector split at commas>, comment, organization_id}], echoes
    ["Creating feedback"] and then the decoded response, logs nothing
    and returns. *)
Theorem create_feedback_posts_and_echoes_the_response
    (w : World) (task_id values completion_tags_selector comment : string)
    (v : JSON) (r : Response) (j : JSON) :
  json_loads values = Some v ->
  fst (transport (net w)
         (create_request (new_instance None) task_id v
            (str_split "," completion_tags_selector) (Some comment))) = inr r ->
  is_success r = true ->
  body r = JsonBody j ->
  exists w',
    create_feedback task_id values completion_tags_selector comment w = (Return tt, w')
    /\ sent w' = sent w ++
         [{| req_method := POST;
             req_url := url default_config +:+ "/api/v1/feedback";
             req_headers := [("x-log10-token", token default_config);
                             ("x-log10-organization-id", org_id default_config);
                             ("Content-Type", "application/json")];
             req_json :=
               Some (JObj [("task_id", JStr task_id);
                           ("json_values", v);
                           ("completion_tags_selector",
                            JArr (map JStr (str_split "," completion_tags_selector)));
                           ("comment", JStr comment);
                           ("organization_id", JStr (org_id default_config))]) |}]
    /\ stdout w' = stdout w ++ [EchoText "Creating feedback"; EchoValue j]
    /\ stderr w' = stderr w.
Proof.
  intros Hv Hans Hok Hbody.
  destruct (create_feedback_parsed w task_id values completion_tags_selector comment v Hv)
    as (w0 & _ & Hsent & Herr & Hout & ->).
  simpl. unfold attempt, Response_json. rewrite Hans, Hok, Hbody.
  eexists. split; [reflexivity|]. simpl.
  rewrite Hsent, Herr, Hout, <- app_assoc, app_nil_r. auto.
Qed.

(** X20.  [create_feedback] answered by a response of successful status
    whose body is no JSON: the POST has been sent, and the command then
    raises [JSONDecodeError] from [feedback.json()] without echoing a
    response. *)
Theorem create_feedback_raises_after_posting_on_undecodable_response
    (w : World) (task_id values completion_tags_selector comment : string)
    (v : JSON) (r : Response) (raw : string) :
  json_loads values = Some v ->
  fst (transport (net w)
         (create_request (new_instance None) task_id v
            (str_split "," completion_tags_selector) (Some comment))) = inr r ->
  is_success r = true ->
  body r = NonJsonBody raw ->
  exists w',
    create_feedback task_id values completion_tags_selector comment w
      = (Raise JSONDecodeError, w')
    /\ sent w' = sent w ++
         [create_request (new_instance None) task_id v
            (str_split "," completion_tags_selector) (Some comment)]
    /\ stdout w' = stdout w ++ [EchoText "Creating feedback"]
    /\ stderr w' = stderr w.
Proof.
  intros Hv Hans Hok Hbody.
  destruct (create_feedback_parsed w task_id values completion_tags_selector comment v Hv)
    as (w0 & _ & Hsent & Herr & Hout & ->).
  simpl. unfold attempt, Response_json. rewrite Hans, Hok, Hbody.
  eexists. split; [reflexivity|]. simpl.
  rewrite Hsent, Herr, Hout, app_nil_r. auto.
Qed.

End CreateCommandCases.

(** ** Splitting the tag selector *)

Lemma str_split_cons (sep : ascii) (s : string) :
  exists hd tl, str_split sep s = hd :: tl.
Proof.
  destruct s as [|c s]; simpl; [eauto|].
  destruct (Ascii.eqb c sep); [eauto|].
  destruct (str_split sep s); eauto.
Qed.

Lemma str_join_cons (sep p q : string) (rest : list string) :
  str_join sep (p :: q :: rest) = p +:+ sep +:+ str_join sep (q :: rest).
Proof. reflexivity. Qed.

(** X21.  Joining the tags that [create_feedback] obtains from the
    selector, [completion_tags_selector.split(",")], with the separator
    gives the selector back: the split loses nothing, empty tags and
    surrounding spaces included. *)
Theorem join_after_split_is_the_selector (sep : ascii) (s : string) :
  str_join (String sep EmptyString) (str_split sep s) = s.
Proof.
  induction s as [|c s IH]; [reflexivity|].
  destruct (str_split_cons sep s) as (hd & tl & Hs).
  cbn [str_split]. rewrite Hs in *.
  destruct (Ascii.eqb_spec c sep) as [->|Hne].
  - rewrite str_join_cons, IH. reflexivity.
  - destruct tl as [|hd' tl].
    + cbn [str_join] in *. rewrite IH. reflexivity.
    + rewrite str_join_cons in *. rewrite <- IH. reflexivity.
Qed.

(** X22.  The split of a selector yields one tag more than the selector
    has separators (so at least one tag, the empty one for the empty
    selector), and no tag contains the separator. *)
Theorem split_yields_one_tag_more_than_separators (sep : ascii) (s : string) :
  length (str_split sep s) = S (count_char sep s)
  /\ Forall (fun tag => count_char sep tag = 0%nat) (str_split sep s).
Proof.
  induction s as [|c s [IHlen IHall]]; simpl.
  - split; [reflexivity | repeat constructor].
  - destruct (Ascii.eqb c sep) eqn:Hc.
    + split; [simpl; rewrite IHlen; reflexivity | constructor; [reflexivity | exact IHall]].
    + destruct (str_split_cons sep s) as (hd & tl & Hs). rewrite Hs in *.
      split; [exact IHlen|].
      inversion IHall; subst. constructor; [|assumption].
      simpl. rewrite Hc. assumption.
Qed.

(** ** Sequences of calls *)

Section CallSequences.
Context `{Ext : Externals}.

(** X8.  The requests a sequence of [create] and [list] calls on a live
    instance puts on the wire are, in order, the requests of the calls:
    one per call, determined by the arguments and the instance alone,
    whatever the service answered to the earlier ones. *)
Theorem requests_follow_the_calls
    (self : ref) (obj : FeedbackObj) (cs : list Call) (w : World) :
  heap w !! self = Some obj ->
  sent (run_calls self cs w) = sent w ++ map (call_request obj) cs.
Proof.
  revert w. induction cs as [|c cs IH]; intros w Hself; simpl.
  - rewrite app_nil_r. reflexivity.
  - assert (Hstep : heap (snd (run_call self c w)) = heap w
                    /\ sent (snd (run_call self c w)) = sent w ++ [call_request obj c]).
    { rewrite (call_run w self obj c Hself). destruct (attempt _); simpl; auto. }
    destruct Hstep as [Hheap Hsent].
    rewrite IH by (rewrite Hheap; exact Hself).
    rewrite Hsent, <- app_assoc. reflexivity.
Qed.

End CallSequences.

(** ** Concrete runs of the further properties *)

(** X1 on a service over quota. *)
Lemma error_value_is_logged_after_the_exception_witness :
  let w := one_instance over_quota in
  let run := run_call (Ext := scripted over_quota) 0%nat (CallList 0 25 None) w in
  heap w !! 0%nat = Some (new_instance (Ext := scripted over_quota) None)
  /\ is_success quota_exceeded = false
  /\ fst run = Raise (HTTPStatusError quota_exceeded)
  /\ stderr (snd run) = [LogException (HTTPStatusError quota_exceeded);
                         LogValue (JStr "quota exceeded")].
Proof.
  cbv zeta.
  rewrite (error_value_is_logged_after_the_exception (Ext := scripted over_quota)
             (one_instance over_quota) 0%nat (new_instance (Ext := scripted over_quota) None)
             (CallList 0 25 None) quota_exceeded [("error", JStr "quota exceeded")]
             (JStr "quota exceeded") eq_refl eq_refl eq_refl eq_refl eq_refl).
  repeat split.
Defined.

(** X2 on an unreachable network. *)
Lemma transport_failure_is_logged_and_reraised_witness :
  let w := one_instance unreachable in
  let run := run_call (Ext := scripted unreachable) 0%nat
               (CallCreate "T1" (JObj []) ["tagA"] None) w in
  heap w !! 0%nat = Some (new_instance (Ext := scripted unreachable) None)
  /\ exn_response (RequestError "connection refused") = None
  /\ fst run = Raise (RequestError "connection refused")
  /\ stderr (snd run) = [LogException (RequestError "connection refused")]
  /\ length (sent (snd run)) = 1%nat.
Proof.
  cbv zeta.
  rewrite (transport_failure_is_logged_and_reraised (Ext := scripted unreachable)
             (one_instance unreachable) 0%nat (new_instance (Ext := scripted unreachable) None)
             (CallCreate "T1" (JObj []) ["tagA"] None) (RequestError "connection refused")
             eq_refl eq_refl eq_refl).
  repeat split.
Defined.

(** X3 on a failing service. *)
Lemma error_object_without_error_key_logs_the_exception_only_witness :
  let w := one_instance failing in
  let run := run_call (Ext := scripted failing) 0%nat (CallList 0 25 None) w in
  heap w !! 0%nat = Some (new_instance (Ext := scripted failing) None)
  /\ is_success internal_error = false
  /\ fst run = Raise (HTTPStatusError internal_error)
  /\ stderr (snd run) = [LogException (HTTPStatusError internal_error)].
Proof.
  cbv zeta.
  rewrite (error_object_without_error_key_logs_the_exception_only (Ext := scripted failing)
             (one_instance failing) 0%nat (new_instance (Ext := scripted failing) None)
             (CallList 0 25 None) internal_error [("detail", JStr "boom")]
             eq_refl eq_refl eq_refl eq_refl eq_refl).
  repeat split.
Defined.

(** X4 on a service whose error body is a number. *)
Lemma scalar_error_body_raises_type_error_witness :
  let w := one_instance (always scalar_error) in
  let run := run_call (Ext := scripted (always scalar_error)) 0%nat (CallList 0 25 None) w in
  heap w !! 0%nat = Some (new_instance (Ext := scripted (always scalar_error)) None)
  /\ is_success scalar_error = false
  /\ json_scalar (JInt 0) = true
  /\ fst run = Raise TypeError
  /\ stderr (snd run) = [LogException (HTTPStatusError scalar_error)].
Proof.
  cbv zeta.
  rewrite (scalar_error_body_raises_type_error (Ext := scripted (always scalar_error))
             (one_instance (always scalar_error)) 0%nat
             (new_instance (Ext := scripted (always scalar_error)) None)
             (CallList 0 25 None) scalar_error (JInt 0)
             eq_refl eq_refl eq_refl eq_refl eq_refl).
  repeat split.
Defined.

(** X5 on a service whose error body is an array that lists ["error"]. *)
Lemma array_error_body_raises_type_error_when_it_lists_error_witness :
  let w := one_instance (always array_error) in
  let run := run_call (Ext := scripted (always array_error)) 0%nat (CallList 0 25 None) w in
  heap w !! 0%nat = Some (new_instance (Ext := scripted (always array_error)) None)
  /\ is_success array_error = false
  /\ In (JStr "error") [JStr "error"; JStr "bad offset"]
  /\ fst run = Raise TypeError.
Proof.
  cbv zeta.
  assert (Hin : In (JStr "error") [JStr "error"; JStr "bad offset"]) by (left; reflexivity).
  destruct (array_error_body_raises_type_error_when_it_lists_error
              (Ext := scripted (always array_error))
              (one_instance (always array_error)) 0%nat
              (new_instance (Ext := scripted (always array_error)) None)
              (CallList 0 25 None) array_error [JStr "error"; JStr "bad offset"]
              eq_refl eq_refl eq_refl eq_refl) as (Hyes & _ & _).
  split; [reflexivity|]. split; [reflexivity|]. split; [exact Hin|]. exact (Hyes Hin).
Defined.

(** X6 on a service over quota: the call raises, and the log has grown
    by the exception and the error value. *)
Lemma log_grows_exactly_when_the_call_raises_witness :
  let w := one_instance over_quota in
  let run := run_call (Ext := scripted over_quota) 0%nat (CallList 0 25 None) w in
  heap w !! 0%nat = Some (new_instance (Ext := scripted over_quota) None)
  /\ fst run = Raise (HTTPStatusError quota_exceeded)
  /\ stdout (snd run) = stdout w
  /\ stderr (snd run) <> stderr w
  /\ exists e0,
       (fst (transport (Externals := scripted over_quota) (net w)
               (call_request (new_instance (Ext := scripted over_quota) None)
                  (CallList 0 25 None))) = inl e0
        \/ exists r,
             fst (transport (Externals := scripted over_quota) (net w)
                    (call_request (new_instance (Ext := scripted over_quota) None)
                       (CallList 0 25 None))) = inr r
             /\ is_success r = false /\ e0 = HTTPStatusError r)
       /\ (stderr (snd run) = stderr w ++ [LogException e0]
           \/ exists v, error_value e0 = Return v
                        /\ stderr (snd run) = stderr w ++ [LogException e0; LogValue v]).
Proof.
  cbv zeta.
  destruct (log_grows_exactly_when_the_call_raises (Ext := scripted over_quota)
              (one_instance over_quota) 0%nat
              (new_instance (Ext := scripted over_quota) None)
              (CallList 0 25 None) eq_refl) as (Hout & Hiff & Hraise).
  split; [reflexivity|]. split; [reflexivity|]. split; [exact Hout|].
  split.
  - intros Heq. apply Hiff in Heq. destruct Heq as [v Hv]. discriminate Hv.
  - exact (Hraise (HTTPStatusError quota_exceeded) eq_refl).
Defined.

(** X7 on a payload that already names another organization. *)
Lemma post_request_sets_the_organization_id_witness :
  let w := one_instance healthy in
  let json_payload := [("organization_id", JStr "someone-else"); ("task_id", JStr "T1")] in
  heap w !! 0%nat = Some (new_instance (Ext := scripted healthy) None)
  /\ exists sent_payload,
       sent (snd (Feedback._post_request (Ext := scripted healthy) 0%nat
                    "/api/v1/feedback" json_payload w)) =
         [{| req_method := POST;
             req_url := "https://log10.io/api/v1/feedback";
             req_headers := [("x-log10-token", "t0k3n");
                             ("x-log10-organization-id", "org-1");
                             ("Content-Type", "application/json")];
             req_json := Some (JObj sent_payload) |}]
       /\ dict_get "organization_id" sent_payload = Some (JStr "org-1")
       /\ dict_keys sent_payload = ["organization_id"; "task_id"].
Proof.
  cbv zeta. split; [reflexivity|].
  destruct (post_request_sets_the_organization_id (Ext := scripted healthy)
              (one_instance healthy) 0%nat (new_instance (Ext := scripted healthy) None)
              "/api/v1/feedback"
              [("organization_id", JStr "someone-else"); ("task_id", JStr "T1")] eq_refl)
    as (sent_payload & Hsent & Horg & _ & Hkeys & _).
  exists sent_payload. split; [exact Hsent|]. split; [exact Horg|].
  apply Hkeys. eexists. reflexivity.
Defined.

(** X8 on a healthy service: a create, then two lists. *)
Lemma requests_follow_the_calls_witness :
  let w := one_instance healthy in
  let obj := new_instance (Ext := scripted healthy) None in
  let cs := [CallCreate "T1" (JObj []) ["tagA"] None; CallList 0 25 None;
             CallList 25 25 (Some "a")] in
  heap w !! 0%nat = Some obj
  /\ sent (run_calls (Ext := scripted healthy) 0%nat cs w) =
       [create_request obj "T1" (JObj []) ["tagA"] None;
        list_request obj 0 25; list_request obj 25 25].
Proof.
  cbv zeta. split; [reflexivity|].
  exact (requests_follow_the_calls (Ext := scripted healthy) 0%nat
           (new_instance (Ext := scripted healthy) None)
           [CallCreate "T1" (JObj []) ["tagA"] None; CallList 0 25 None;
            CallList 25 25 (Some "a")]
           (one_instance healthy) eq_refl).
Defined.

(** X9 on a second instance with a configuration of its own. *)
Lemma instances_are_independent_witness :
  let w := one_instance healthy in
  let config := {| url := "https://eu.log10.io"; token := "other"; org_id := "org-2" |} in
  heap w !! 0%nat = Some (new_instance (Ext := scripted healthy) None)
  /\ exists other w',
       Feedback.__init__ (Ext := scripted healthy) (Some config) w = (Return other, w')
       /\ other <> 0%nat
       /\ heap w' !! 0%nat = Some (new_instance (Ext := scripted healthy) None)
       /\ heap w' !! other = Some (new_instance (Ext := scripted healthy) (Some config)).
Proof.
  cbv zeta. split; [reflexivity|].
  destruct (instances_are_independent (Ext := scripted healthy)
              (one_instance healthy) 0%nat (new_instance (Ext := scripted healthy) None)
              (Some {| url := "https://eu.log10.io"; token := "other"; org_id := "org-2" |})
              eq_refl)
    as (other & w' & Hinit & Hne & Hold & Hnew & _).
  exists other, w'. split; [exact Hinit|]. split; [exact Hne|]. split; [exact Hold | exact Hnew].
Defined.

(** X11 on a healthy service: no [--task_id]. *)
Lemma list_feedback_without_filter_shows_the_page_witness :
  let w := empty_world healthy in
  let w1 := snd (fetch (Ext := scripted healthy) 0 25 w) in
  truthy None = false
  /\ fetch (Ext := scripted healthy) 0 25 w = (Return (PyResponse page_ab), w1)
  /\ Forall2 represents [record_a; record_b] [feedback_a; feedback_b]
  /\ cells_ok (Ext := scripted healthy)
       (feedback_table (Ext := scripted healthy) [feedback_a; feedback_b]) = true
  /\ list_feedback (Ext := scripted healthy) 0 25 None w =
       (Return tt,
        with_stdout w1
          [PrintTable {| title := "Feedback";
                         columns := ["ID"; "Task Name"; "Feedback"; "Completion ID"];
                         rows := [["f1"; "summarize"; "{}"; "c1,c2"];
                                  ["f2"; "translate"; "{}"; ""]] |};
           PrintText "Total feedback: 2"]).
Proof.
  cbv zeta.
  assert (Hrs : Forall2 represents [record_a; record_b] [feedback_a; feedback_b])
    by (repeat constructor; eexists; repeat split; reflexivity).
  split; [reflexivity|]. split; [reflexivity|]. split; [exact Hrs|].
  split; [reflexivity|].
  exact (list_feedback_without_filter_shows_the_page (Ext := scripted healthy)
           (empty_world healthy) (snd (fetch (Ext := scripted healthy) 0 25 (empty_world healthy)))
           0 25 None page_ab (JObj [("data", JArr [record_a; record_b])])
           [record_a; record_b] [feedback_a; feedback_b]
           eq_refl eq_refl eq_refl eq_refl Hrs eq_refl).
Defined.

(** X12 on a service that answers 204 with an empty body. *)
Lemma list_feedback_raises_on_undecodable_page_witness :
  let w := empty_world (always no_content) in
  let w1 := snd (fetch (Ext := scripted (always no_content)) 0 25 w) in
  fetch (Ext := scripted (always no_content)) 0 25 w = (Return (PyResponse no_content), w1)
  /\ list_feedback (Ext := scripted (always no_content)) 0 25 None w
       = (Raise JSONDecodeError, w1)
  /\ stdout w1 = [].
Proof.
  cbv zeta. split; [reflexivity|]. split; [|reflexivity].
  exact (list_feedback_raises_on_undecodable_page (Ext := scripted (always no_content))
           (empty_world (always no_content))
           (snd (fetch (Ext := scripted (always no_content)) 0 25
                   (empty_world (always no_content))))
           0 25 None no_content "" eq_refl eq_refl).
Defined.

(** X13 on a service whose page has no [data]. *)
Lemma list_feedback_raises_on_page_without_data_witness :
  let w := empty_world (always page_without_data) in
  let w1 := snd (fetch (Ext := scripted (always page_without_data)) 0 25 w) in
  fetch (Ext := scripted (always page_without_data)) 0 25 w
    = (Return (PyResponse page_without_data), w1)
  /\ list_feedback (Ext := scripted (always page_without_data)) 0 25 None w
       = (Raise (KeyError "data"), w1).
Proof.
  cbv zeta. split; [reflexivity|].
  exact (list_feedback_raises_on_page_without_data
           (Ext := scripted (always page_without_data))
           (empty_world (always page_without_data))
           (snd (fetch (Ext := scripted (always page_without_data)) 0 25
                   (empty_world (always page_without_data))))
           0 25 None page_without_data [("items", JArr [])] eq_refl eq_refl eq_refl).
Defined.

(** X14 on a page whose second record has no [task_id]. *)
Lemma list_feedback_filter_raises_on_record_without_task_id_witness :
  let w := empty_world (always page_untasked) in
  let w1 := snd (fetch (Ext := scripted (always page_untasked)) 0 25 w) in
  "a" <> ""
  /\ fetch (Ext := scripted (always page_untasked)) 0 25 w
       = (Return (PyResponse page_untasked), w1)
  /\ Forall (binds_key "task_id") [record_a]
  /\ list_feedback (Ext := scripted (always page_untasked)) 0 25 (Some "a") w
       = (Raise (KeyError "task_id"), w1).
Proof.
  cbv zeta.
  assert (Hne : "a" <> "") by discriminate.
  assert (Hbefore : Forall (binds_key "task_id") [record_a])
    by (repeat constructor; eexists _, _; split; reflexivity).
  split; [exact Hne|]. split; [reflexivity|]. split; [exact Hbefore|].
  exact (list_feedback_filter_raises_on_record_without_task_id
           (Ext := scripted (always page_untasked))
           (empty_world (always page_untasked))
           (snd (fetch (Ext := scripted (always page_untasked)) 0 25
                   (empty_world (always page_untasked))))
           0 25 "a" page_untasked (JObj [("data", JArr [record_a; record_untasked])])
           [record_a] []
           [("id", JStr "f9"); ("task_name", JStr "orphan");
            ("json_values", JObj []); ("matched_completion_ids", JArr [])]
           Hne eq_refl eq_refl eq_refl Hbefore eq_refl).
Defined.

(** X16 on a service over quota. *)
Lemma list_feedback_prints_the_error_value_witness :
  is_success quota_exceeded = false
  /\ exists w',
       list_feedback (Ext := scripted over_quota) 0 25 None (empty_world over_quota)
         = (Return tt, w')
       /\ stdout w' = [EchoText "Error fetching feedback HTTPStatusError";
                       EchoValue (JStr "quota exceeded")]
       /\ stderr w' = [LogException (HTTPStatusError quota_exceeded);
                       LogValue (JStr "quota exceeded")].
Proof.
  split; [reflexivity|].
  destruct (list_feedback_prints_the_error_value (Ext := scripted over_quota)
              (empty_world over_quota) 0 25 None quota_exceeded
              [("error", JStr "quota exceeded")] (JStr "quota exceeded")
              eq_refl eq_refl eq_refl eq_refl) as (w' & Hrun & Hout & Herr & _).
  exists w'. split; [exact Hrun|]. split; [exact Hout | exact Herr].
Defined.

(** X17 on a gateway that answers 502 with an HTML page. *)
Lemma list_feedback_reports_the_decode_error_witness :
  is_success bad_gateway = false
  /\ exists w',
       list_feedback (Ext := scripted gateway_down) 0 25 None (empty_world gateway_down)
         = (Return tt, w')
       /\ stdout w' = [EchoText "Error fetching feedback Exception"]
       /\ stderr w' = [LogException (HTTPStatusError bad_gateway)].
Proof.
  split; [reflexivity|].
  destruct (list_feedback_reports_the_decode_error (Ext := scripted gateway_down)
              (empty_world gateway_down) 0 25 None bad_gateway "<html>Bad Gateway</html>"
              eq_refl eq_refl eq_refl) as (w' & Hrun & Hout & Herr & _).
  exists w'. split; [exact Hrun|]. split; [exact Hout | exact Herr].
Defined.

(** X18 on an unreachable network. *)
Lemma list_feedback_reports_a_transport_failure_witness :
  exn_response (RequestError "connection refused") = None
  /\ exists w',
       list_feedback (Ext := scripted unreachable) 0 25 None (empty_world unreachable)
         = (Return tt, w')
       /\ stdout w' = [EchoText "Error fetching feedback connection refused"]
       /\ stderr w' = [LogException (RequestError "connection refused")].
Proof.
  split; [reflexivity|].
  destruct (list_feedback_reports_a_transport_failure (Ext := scripted unreachable)
              (empty_world unreachable) 0 25 None (RequestError "connection refused")
              eq_refl eq_refl) as (w' & Hrun & Hout & Herr & _).
  exists w'. split; [exact Hrun|]. split; [exact Hout | exact Herr].
Defined.

(** X19 on a healthy service. *)
Lemma create_feedback_posts_and_echoes_the_response_witness :
  json_loads (Externals := scripted healthy) "{}" = Some (JObj [])
  /\ is_success created = true
  /\ exists w',
       create_feedback (Ext := scripted healthy) "T1" "{}" "tagA,tagB" "nice"
         (empty_world healthy) = (Return tt, w')
       /\ sent w' =
            [{| req_method := POST;
                req_url := "https://log10.io/api/v1/feedback";
                req_headers := [("x-log10-token", "t0k3n");
                                ("x-log10-organization-id", "org-1");
                                ("Content-Type", "application/json")];
                req_json :=
                  Some (JObj [("task_id", JStr "T1");
                              ("json_values", JObj []);
                              ("completion_tags_selector", JArr [JStr "tagA"; JStr "tagB"]);
                              ("comment", JStr "nice");
                              ("organization_id", JStr "org-1")]) |}]
       /\ stdout w' = [EchoText "Creating feedback"; EchoValue (JObj [("id", JStr "f3")])].
Proof.
  split; [reflexivity|]. split; [reflexivity|].
  destruct (create_feedback_posts_and_echoes_the_response (Ext := scripted healthy)
              (empty_world healthy) "T1" "{}" "tagA,tagB" "nice" (JObj []) created
              (JObj [("id", JStr "f3")]) eq_refl eq_refl eq_refl eq_refl)
    as (w' & Hrun & Hsent & Hout & _).
  exists w'. split; [exact Hrun|]. split; [exact Hsent | exact Hout].
Defined.

(** X20 on a service that answers 204 with an empty body. *)
Lemma create_feedback_raises_after_posting_on_undecodable_response_witness :
  json_loads (Externals := scripted (always no_content)) "{}" = Some (JObj [])
  /\ is_success no_content = true
  /\ exists w',
       create_feedback (Ext := scripted (always no_content)) "T1" "{}" "tagA" ""
         (empty_world (always no_content)) = (Raise JSONDecodeError, w')
       /\ length (sent w') = 1%nat
       /\ stdout w' = [EchoText "Creating feedback"].
Proof.
  split; [reflexivity|]. split; [reflexivity|].
  destruct (create_feedback_raises_after_posting_on_undecodable_response
              (Ext := scripted (always no_content))
              (empty_world (always no_content)) "T1" "{}" "tagA" "" (JObj []) no_content ""
              eq_refl eq_refl eq_refl eq_refl)
    as (w' & Hrun & Hsent & Hout & _).
  exists w'. split; [exact Hrun|]. split; [rewrite Hsent; reflexivity | exact Hout].
Defined.

(** X23 on a page whose task name is [[/bold]]. *)
Lemma list_feedback_raises_on_rejected_markup_witness :
  let w := empty_world (always page_tagged) in
  let w1 := snd (fetch (Ext := scripted (always page_tagged)) 0 25 w) in
  fetch (Ext := scripted (always page_tagged)) 0 25 w
    = (Return (PyResponse page_tagged), w1)
  /\ Forall2 represents [record_tagged] [feedback_tagged]
  /\ cells_ok (Ext := scripted (always page_tagged))
       (feedback_table (Ext := scripted (always page_tagged)) [feedback_tagged]) = false
  /\ list_feedback (Ext := scripted (always page_tagged)) 0 25 None w
       = (Raise MarkupError, w1)
  /\ stdout w1 = [].
Proof.
  cbv zeta.
  assert (Hrs : Forall2 represents [record_tagged] [feedback_tagged])
    by (repeat constructor; eexists; repeat split; reflexivity).
  split; [reflexivity|]. split; [exact Hrs|]. split; [reflexivity|].
  split; [|reflexivity].
  exact (list_feedback_raises_on_rejected_markup (Ext := scripted (always page_tagged))
           (empty_world (always page_tagged))
           (snd (fetch (Ext := scripted (always page_tagged)) 0 25
                   (empty_world (always page_tagged))))
           0 25 None page_tagged (JObj [("data", JArr [record_tagged])])
           [record_tagged] [feedback_tagged]
           eq_refl eq_refl eq_refl Hrs eq_refl).
Defined.
